(** * tracklab: record model, benchmark encoders and report reducer

  A shallow embedding of

  - [pbtrack/datastruct/detections.py]  (classes [Detections], [Detection])
  - [tracklab/wrappers/eval/trackeval_evaluator.py]
    ([save_in_soccernet_format], [soccernet_encoding],
     [save_in_mot_challenge_format], [_mot_encoding], [format_metric])

  Scalars held in numpy arrays and metric values are IEEE binary64
  numbers, embedded as Rocq's primitive floats.  Python exceptions are
  an explicit error result.  pandas tables are lists of row records;
  a cell that is [None]/[NaN] is [None] of an option type. *)

From Stdlib Require Import ZArith QArith Qround Qcanon List Floats Lia.
From stdpp Require Import base option list gmap strings pretty sorting.

Set Warnings "-inexact-float,-register-all".

(** ** Python values shared by both source files *)

Module Py.

Inductive exn : Set :=
| TypeError | AttributeError | ValueError | OverflowError | IndexError.

Inductive result (A : Type) : Type :=
| Ok (a : A)
| Raise (e : exn).
Arguments Ok {A} a.
Arguments Raise {A} e.

Definition bind {A B} (r : result A) (k : A → result B) : result B :=
  match r with
  | Ok a => k a
  | Raise e => Raise e
  end.

Fixpoint mapM {A B} (f : A → result B) (l : list A) : result (list B) :=
  match l with
  | [] => Ok []
  | x :: l' => bind (f x) (λ y, bind (mapM f l') (λ ys, Ok (y :: ys)))
  end.

(** [sub in s] on two [str] values: substring test. *)
Fixpoint contains (sub s : string) : bool :=
  String.prefix sub s ||
  match s with
  | EmptyString => false
  | String _ s' => contains sub s'
  end.

(** What "s contains the substring sub" means. *)
Definition Substring (sub s : string) : Prop :=
  ∃ p q : string, s = p +:+ sub +:+ q.

(** The exact rational value of a finite binary64 number. *)
Definition value_of (x : float) : option Q :=
  match Prim2SF x with
  | S754_zero _ => Some 0%Q
  | S754_finite s m e =>
      let n := if s then Z.neg m else Z.pos m in
      Some (if (0 <=? e)%Z then inject_Z (n * 2 ^ e)
            else Qmake n (2 ^ Z.to_pos (- e)))
  | _ => None
  end.

(** [int(x)] on a float: the integral part, [ValueError] on NaN,
    [OverflowError] on an infinity. *)
Definition int (x : float) : result Z :=
  match Prim2SF x with
  | S754_nan => Raise ValueError
  | S754_infinity _ => Raise OverflowError
  | S754_zero _ => Ok 0%Z
  | S754_finite s m e =>
      let mag := if (0 <=? e)%Z then (Z.pos m * 2 ^ e)%Z
                 else (Z.pos m / 2 ^ (- e))%Z in
      Ok (if s then (- mag)%Z else mag)
  end.

(** Rounding of a rational toward zero. *)
Definition Qtrunc (q : Q) : Z :=
  if Qle_bool 0 q then Qfloor q else Qceiling q.

End Py.

#[export] Instance result_bind : MBind Py.result := λ A B k r, Py.bind r k.

(** ** The part of numpy the sources call *)

Module Np.
Import Py.
Local Open Scope float_scope.

(** C [rint] in the default rounding mode: nearest integer, ties to
    even.  Below 2^52 adding and removing 2^52 rounds to an integer;
    from 2^52 on every binary64 number is an integer already. *)
Definition rint (x : float) : float :=
  if x =? 0 then x
  else if abs x <? 0x1p52 then
    let r := (abs x + 0x1p52) - 0x1p52 in
    if x <? 0 then - r else r
  else x.

Definition power_of_ten (n : nat) : float :=
  Nat.iter n (λ p, p * 10) 1.

(** [np.around(x, decimals)] for a float and [decimals >= 0]:
    [rint(x * 10**decimals) / 10**decimals]. *)
Definition around (x : float) (decimals : nat) : float :=
  match decimals with
  | O => rint x
  | _ => rint (x * power_of_ten decimals) / power_of_ten decimals
  end.

End Np.

(** ** pbtrack/datastruct/detections.py *)

Module Pbtrack.
Import Py.

(** The arithmetic of the arrays' element type: [+], [-] and [/ 2]. *)
Class Scalar (num : Type) : Type :=
  { add : num → num → num;
    sub : num → num → num;
    halve : num → num }.

(** binary64, the element type of the arrays at run time *)
#[export] Instance float64 : Scalar float :=
  { add := PrimFloat.add;
    sub := PrimFloat.sub;
    halve := λ x, PrimFloat.div x 2%float }.

(** exact rational arithmetic *)
#[export] Instance rational : Scalar Qc :=
  { add := Qcplus;
    sub := Qcminus;
    halve := λ x, Qcdiv x (Q2Qc 2) }.


Section Arrays.
Context {num : Type} `{Scalar num}.

(** A one-dimensional numpy array. *)
Definition ndarray : Type := list num.

(** An element of an object column: an array, or [None]. *)
Definition obj : Type := option ndarray.

(** [a[:n]] and [a[n:]]; subscripting [None] is a [TypeError]. *)
Definition slice_to (n : nat) (a : obj) : result ndarray :=
  match a with
  | Some v => Ok (take n v)
  | None => Raise TypeError
  end.

Definition slice_from (n : nat) (a : obj) : result ndarray :=
  match a with
  | Some v => Ok (drop n v)
  | None => Raise TypeError
  end.

(** Element-wise binary operation with numpy's broadcasting of
    one-dimensional shapes. *)
Definition broadcast (op : num → num → num) (a b : ndarray) : result ndarray :=
  match a, b with
  | _, [y] => Ok (map (λ x, op x y) a)
  | [x], _ => Ok (map (op x) b)
  | _, _ => if decide (length a = length b) then Ok (zip_with op a b)
            else Raise ValueError
  end.

(** [np.concatenate((a, b))] *)
Definition concatenate (a b : ndarray) : ndarray := a ++ b.

(** A Python function of one positional parameter. *)
Record lambda (A B : Type) : Type :=
  { param : string;
    body : A → result B }.
Arguments param {A B} _.
Arguments body {A B} _.

(** [f(x, **kwds)]: the positional argument takes the only parameter,
    so a keyword names either no parameter or one that has its value:
    a [TypeError] both ways. *)
Definition call {A B} (f : lambda A B) (x : A) (kwds : list string) : result B :=
  match kwds with
  | [] => body f x
  | _ :: _ => Raise TypeError
  end.

(** [Series.apply(func, **kwds)]: an empty Series is returned as it is,
    otherwise [func(x, **kwds)] is called on every element. *)
Definition Series_apply {A B} (f : lambda A B) (kwds : list string)
    (s : list A) : result (list B) :=
  match s with
  | [] => Ok []
  | _ :: _ => mapM (λ x, call f x kwds) s
  end.

(** [Series.item()] *)
Definition item {A} (s : list A) : result A :=
  match s with
  | [x] => Ok x
  | _ => Raise ValueError
  end.

(** The row type: the Series built by [Detection.create]. *)
Record Detection : Type :=
  { image_id : Z;
    id : Z;
    bbox : obj;
    keypoints_xyc : option (list ndarray);
    track_id : option Z;
    person_id : option Z;
    category_id : option Z }.

(** The table: one [Detection] per row. *)
Definition Detections : Type := list Detection.

(** A value found in a cell. *)
Inductive cell : Type :=
| CNone
| CInt (z : Z)
| CArray (a : ndarray)
| CKeypoints (k : list ndarray).

(** [lambda ltwh: np.concatenate((ltwh[:2], ltwh[:2] + ltwh[2:]))] *)
Definition ltrb_lambda : lambda obj ndarray :=
  {| param := "ltwh";
     body := λ ltwh,
       (lt ← slice_to 2 ltwh;
        lt' ← slice_to 2 ltwh;
        wh ← slice_from 2 ltwh;
        rb ← broadcast add lt' wh;
        Ok (concatenate lt rb)) |}.

(** [lambda ltwh: np.concatenate((ltwh[:2] + ltwh[2:] / 2, ltwh[2:]))] *)
Definition cmwh_lambda : lambda obj ndarray :=
  {| param := "ltwh";
     body := λ ltwh,
       (lt ← slice_to 2 ltwh;
        wh ← slice_from 2 ltwh;
        cm ← broadcast add lt (map halve wh);
        wh' ← slice_from 2 ltwh;
        Ok (concatenate cm wh')) |}.

(** [Detections.bbox_ltrb] *)
Definition bbox_ltrb (self : Detections) : result (list ndarray) :=
  Series_apply ltrb_lambda [] (map bbox self).

(** [Detections.bbox_cmwh] *)
Definition bbox_cmwh (self : Detections) : result (list ndarray) :=
  Series_apply cmwh_lambda [] (map bbox self).

(** Modelled from the spec: [pbtrack.utils.coordinates.kp_img_to_kp_bbox]
    is imported by the module but is not among the sources; "for each
    keypoint (x, y, c), output (x − l, y − t, c)". *)
Definition kp_img_to_kp_bbox (kps : list ndarray) (ltwh : ndarray) : result (list ndarray) :=
  match ltwh with
  | l :: t :: _ =>
      mapM (λ kp, match kp with
                  | [x; y; c] => Ok [sub x l; sub y t; c]
                  | _ => Raise ValueError
                  end) kps
  | _ => Raise IndexError
  end.

(** Attribute access on an element of the [bbox] column.  Neither an
    array nor [None] has an attribute of the names the lambda below asks
    for. *)
Definition element_getattr {X} (r : obj) (name : string) : result X :=
  Raise AttributeError.

(** [lambda r: kp_img_to_kp_bbox(r.keypoints_xyc, r.bbox_ltwh)] *)
Definition keypoints_lambda : lambda obj (list ndarray) :=
  {| param := "r";
     body := λ r,
       (kps ← element_getattr r "keypoints_xyc";
        ltwh ← element_getattr r "bbox_ltwh";
        kp_img_to_kp_bbox kps ltwh) |}.

(** [Detections.keypoints_bbox_xyc]:
    [self.bbox.apply(lambda r: ..., axis=1)] *)
Definition keypoints_bbox_xyc (self : Detections) : result (list (list ndarray)) :=
  Series_apply keypoints_lambda ["axis"] (map bbox self).

(** The derived properties declared by class [Detections], by name.
    (Attributes inherited from [pd.DataFrame] are outside the model.) *)
Definition Detections_property (attr : string) : option (Detections → result (list cell)) :=
  if decide (attr = "bbox_ltrb") then
    Some (λ self, s ← bbox_ltrb self; Ok (map CArray s))
  else if decide (attr = "bbox_cmwh") then
    Some (λ self, s ← bbox_cmwh self; Ok (map CArray s))
  else if decide (attr = "keypoints_bbox_xyc") then
    Some (λ self, s ← keypoints_bbox_xyc self; Ok (map CKeypoints s))
  else None.

(** [hasattr(Detections, attr)] *)
Definition hasattr_Detections (attr : string) : bool :=
  bool_decide (is_Some (Detections_property attr)).

Definition of_int (o : option Z) : cell :=
  match o with
  | Some z => CInt z
  | None => CNone
  end.

(** [pd.Series.__getattr__]: a label of the index gives its value. *)
Definition Series_getattr (self : Detection) (attr : string) : result cell :=
  if decide (attr = "image_id") then Ok (CInt (image_id self))
  else if decide (attr = "id") then Ok (CInt (id self))
  else if decide (attr = "bbox") then Ok (from_option CArray CNone (bbox self))
  else if decide (attr = "keypoints_xyc") then
    Ok (from_option CKeypoints CNone (keypoints_xyc self))
  else if decide (attr = "track_id") then Ok (of_int (track_id self))
  else if decide (attr = "person_id") then Ok (of_int (person_id self))
  else if decide (attr = "category_id") then Ok (of_int (category_id self))
  else Raise AttributeError.

(** [self.to_frame().T]: the one-row table of a record. *)
Definition to_frame_T (self : Detection) : Detections := [self].

(** [Detection.__getattr__] *)
Definition Detection_getattr (self : Detection) (attr : string) : result cell :=
  if hasattr_Detections attr then
    match Detections_property attr with
    | Some prop => s ← prop (to_frame_T self); item s
    | None => Raise AttributeError
    end
  else Series_getattr self attr.

(** The reading of the specification: build a one-row collection, read
    the property there, take the result of row 0. *)
Definition via_one_row_collection (prop : Detections → result (list cell))
    (d : Detection) : result cell :=
  s ← prop [d];
  match s !! 0%nat with
  | Some v => Ok v
  | None => Raise IndexError
  end.



(** The box (l, t, w, h) as an array, and the two views of it as the
    specification writes them. *)
Definition ltwh (b : num * num * num * num) : ndarray :=
  let '(l, t, w, h) := b in [l; t; w; h].

Definition ltrb_formula (b : num * num * num * num) : ndarray :=
  let '(l, t, w, h) := b in [l; t; add l w; add t h].

Definition cmwh_formula (b : num * num * num * num) : ndarray :=
  let '(l, t, w, h) := b in [add l (halve w); add t (halve h); w; h].

(** A detection carrying only a box. *)
Definition of_box (b : ndarray) : Detection :=
  {| image_id := 0; id := 0; bbox := Some b; keypoints_xyc := None;
     track_id := None; person_id := None; category_id := None |}.

End Arrays.

Arguments ndarray num : clear implicits.
Arguments Detection num : clear implicits.
Arguments Detections num : clear implicits.
Arguments cell num : clear implicits.

End Pbtrack.

(** ** tracklab/wrappers/eval/trackeval_evaluator.py *)

Module Trackeval.
Import Py.

(** *** Tables *)

(** A JSON-like value carried through unchanged (pitch boxes, camera
    parameters, line annotations). *)
Inductive json : Type :=
| JNum (f : float)
| JStr (s : string)
| JList (l : list json)
| JDict (d : list (string * json)).

(** A bbox cell: the array [x[0], x[1], x[2], x[3]]. *)
Record Box : Type :=
  { x0 : float; x1 : float; x2 : float; x3 : float }.

(** A row of the detections table.  [index] is the row label. *)
Record Detection : Type :=
  { index : Z;
    image_id : Z;
    video_id : Z;
    track_id : option Z;
    bbox_ltwh : option Box;
    bbox_pitch : option json;
    bbox_conf : option float;
    category_id : option Z;
    role : option string;
    jersey_number : option string;
    team : option string }.

(** A row of the frame-metadata table.  [im_id] is its column ["id"],
    [None] while the table has no such column. *)
Record Image : Type :=
  { im_index : Z;
    im_id : option Z;
    frame : option Z;
    im_video_id : Z;
    parameters : option json;
    relative_mean_reproj : option float;
    accuracy_at_5 : option float;
    lines : option json }.

(** A row of the sequence-metadata table. *)
Record Video : Type :=
  { vid_index : Z;
    name : string;
    nframes : Z }.

(** *** Files *)

(** A path, as its components. *)
Definition path : Type := list string.

(** A line of a line-format file:
    [frame, track_id, bb_left, bb_top, bb_width, bb_height, bbox_conf,
     <class or x>, y, z]. *)
Record Line : Type :=
  { l_frame : Z;
    l_track_id : Z;
    l_bb_left : float;
    l_bb_top : float;
    l_bb_width : float;
    l_bb_height : float;
    l_bbox_conf : option float;
    l_class : option Z;
    l_y : Z;
    l_z : Z }.

(** A row of the [predictions] table of the document format, and, with
    its null cells left out, a record of the JSON document. *)
Record Prediction : Type :=
  { p_id : string;
    p_image_id : string;
    p_video_id : string;
    p_supercategory : string;
    p_category_id : option Z;
    p_track_id : option Z;
    p_attributes : option (list (string * option string));
    p_bbox_image : option (list (string * float));
    p_bbox_pitch : option json;
    p_parameters : option json;
    p_relative_mean_reproj : option float;
    p_accuracy_at_5 : option float;
    p_lines : option json }.

Inductive file : Type :=
| Text (rows : list Line)
| Json (predictions : list Prediction).

(** The caller's three tables, which the encoders receive by reference,
    and the file system: directories, files, and the members of each
    zip archive. *)
Record World : Type :=
  { detections : list Detection;
    image_metadatas : list Image;
    video_metadatas : list Video;
    dirs : gset path;
    files : gmap path file;
    archives : gmap path (list (path * file)) }.

Definition set_image_metadatas (ims : list Image) (w : World) : World :=
  {| detections := detections w; image_metadatas := ims;
     video_metadatas := video_metadatas w;
     dirs := dirs w; files := files w; archives := archives w |}.

(** [mkdir(parents=True, exist_ok=True)] and [os.makedirs(exist_ok=True)] *)
Definition makedirs (p : path) (w : World) : World :=
  {| detections := detections w; image_metadatas := image_metadatas w;
     video_metadatas := video_metadatas w;
     dirs := dirs w ∪ list_to_set (map (λ n, take n p) (seq 1 (length p)));
     files := files w; archives := archives w |}.

(** [open(p, "w")], content written, closed *)
Definition write_file (p : path) (c : file) (w : World) : World :=
  {| detections := detections w; image_metadatas := image_metadatas w;
     video_metadatas := video_metadatas w;
     dirs := dirs w; files := <[p := c]> (files w); archives := archives w |}.

(** [zipfile.ZipFile(zf, "a").write(p, arcname)] *)
Definition zip_append (zf p arcname : path) (w : World) : World :=
  match files w !! p with
  | Some c =>
      {| detections := detections w; image_metadatas := image_metadatas w;
         video_metadatas := video_metadatas w;
         dirs := dirs w; files := files w;
         archives := <[zf := default [] (archives w !! zf) ++ [(arcname, c)]]>
                       (archives w) |}
  | None => w
  end.

(** [DataFrame.copy()]: a new table with the same rows. *)
Definition copy {A} (df : list A) : list A := df.

(** *** Report Reducer *)

Inductive rendered : Type :=
| RInt (z : Z)
| RFloat (f : float).

Definition format_metric (metric_name : string)
    (metric_value scale_factor : float) : result rendered :=
  if contains "TP" metric_name
     || contains "FN" metric_name
     || contains "FP" metric_name
     || contains "TN" metric_name
  then
    if String.eqb metric_name "MOTP" then
      Ok (RFloat (Np.around (metric_value * scale_factor) 3))
    else
      z ← int metric_value; Ok (RInt z)
  else
    Ok (RFloat (Np.around (metric_value * scale_factor) 3)).

(** The count-like names of the specification. *)
Definition count_like (metric_name : string) : Prop :=
  (Substring "TP" metric_name ∨ Substring "FN" metric_name
   ∨ Substring "FP" metric_name ∨ Substring "TN" metric_name)
  ∧ metric_name ≠ "MOTP".

(** *** Document format *)

(** [replace({np.nan: None})] on a float cell *)
Definition replace_nan (c : option float) : option float :=
  match c with
  | Some f => if PrimFloat.is_nan f then None else Some f
  | None => None
  end.

Definition transform_bbox_image (row : Box) : list (string * float) :=
  [("x", x0 row); ("y", x1 row); ("w", x2 row); ("h", x3 row)].

(** An object row after [dropna(subset=["track_id", "bbox_ltwh",
    "bbox_pitch"], how="any")]: the three cells are there. *)
Record Mandatory : Type :=
  { m_row : Detection;
    m_track_id : Z;
    m_bbox_ltwh : Box;
    m_bbox_pitch : json }.

Definition mandatory (d : Detection) : option Mandatory :=
  match track_id d, bbox_ltwh d, bbox_pitch d with
  | Some t, Some b, Some p =>
      Some {| m_row := d; m_track_id := t; m_bbox_ltwh := b; m_bbox_pitch := p |}
  | _, _, _ => None
  end.

Definition dropna_object (df : list Detection) : list Mandatory :=
  omap mandatory df.

(** The rows of the specification: "non-null track_id, image-space bbox
    and pitch-space bbox". *)
Definition has_mandatory (d : Detection) : Prop :=
  is_Some (track_id d) ∧ is_Some (bbox_ltwh d) ∧ is_Some (bbox_pitch d).

(** The columns renamed, [attributes] and [id] added, projected on the
    columns of the format, the image box re-encoded, the three
    identifiers made text. *)
Definition object_row (m : Mandatory) : Prediction :=
  let d := m_row m in
  {| p_id := pretty (index d);
     p_image_id := pretty (image_id d);
     p_video_id := pretty (video_id d);
     p_supercategory := "object";
     p_category_id := category_id d;
     p_track_id := Some (m_track_id m);
     p_attributes :=
       Some [("role", role d); ("jersey", jersey_number d); ("team", team d)];
     p_bbox_image := Some (transform_bbox_image (m_bbox_ltwh m));
     p_bbox_pitch := Some (m_bbox_pitch m);
     p_parameters := None;
     p_relative_mean_reproj := None;
     p_accuracy_at_5 := None;
     p_lines := None |}.

Definition camera_row (i : Image) : Prediction :=
  {| p_id := pretty (im_index i) +:+ "01";
     p_image_id := pretty (im_index i);
     p_video_id := pretty (im_video_id i);
     p_supercategory := "camera";
     p_category_id := Some 6%Z;
     p_track_id := None;
     p_attributes := None;
     p_bbox_image := None;
     p_bbox_pitch := None;
     p_parameters := parameters i;
     p_relative_mean_reproj := replace_nan (relative_mean_reproj i);
     p_accuracy_at_5 := replace_nan (accuracy_at_5 i);
     p_lines := None |}.

Definition pitch_row (i : Image) : Prediction :=
  {| p_id := pretty (im_index i) +:+ "00";
     p_image_id := pretty (im_index i);
     p_video_id := pretty (im_video_id i);
     p_supercategory := "pitch";
     p_category_id := Some 5%Z;
     p_track_id := None;
     p_attributes := None;
     p_bbox_image := None;
     p_bbox_pitch := None;
     p_parameters := None;
     p_relative_mean_reproj := None;
     p_accuracy_at_5 := None;
     p_lines := lines i |}.

(** [soccernet_encoding(dataframe, supercategory="object")] *)
Definition soccernet_encoding_object (dataframe : list Detection) : list Prediction :=
  map object_row (dropna_object dataframe).

(** [soccernet_encoding(dataframe, supercategory="camera")] *)
Definition soccernet_encoding_camera (dataframe : list Image) : list Prediction :=
  map camera_row dataframe.

(** [soccernet_encoding(dataframe, supercategory="pitch")] *)
Definition soccernet_encoding_pitch (dataframe : list Image) : list Prediction :=
  map pitch_row dataframe.

(** [predictions[predictions["video_id"] == str(id)]] *)
Definition of_video (predictions : list Prediction) (id : Z) : list Prediction :=
  filter (λ p, p_video_id p = pretty id) predictions.

(** Order of [sort_values(by="id")]: the identifiers are text. *)
Definition id_le (p q : Prediction) : Prop :=
  String.leb (p_id p) (p_id q) = true.

#[export] Instance id_le_dec (p q : Prediction) : Decision (id_le p q).
Proof. unfold id_le. apply _. Defined.

(** [save_path.parents[1] / f"{save_path.parent.name}.zip"];
    [parents[1]] is an [IndexError] on a path of fewer than two
    components. *)
Definition zip_path (save_path : path) : result path :=
  match reverse save_path with
  | _ :: parent_name :: above => Ok (reverse above ++ [parent_name +:+ ".zip"])
  | _ => Raise IndexError
  end.

(** [f"{save_path.name}/{file_path.name}"] *)
Definition arcname (save_path : path) (file_name : string) : path :=
  [default "" (last save_path); file_name].

(** The body of the loop over [video_metadatas.iterrows()]. *)
Definition soccernet_video (save_path zf_save_path : path) (save_zip : bool)
    (predictions : list Prediction) (w : World) (video : Video) : World :=
  let file_path := save_path ++ [name video +:+ ".json"] in
  let video_predictions_df := of_video predictions (vid_index video) in
  match video_predictions_df with
  | [] => w
  | _ :: _ =>
      let video_predictions := merge_sort id_le video_predictions_df in
      let w := write_file file_path (Json video_predictions) w in
      if save_zip then
        zip_append zf_save_path file_path
          (arcname save_path (name video +:+ ".json")) w
      else w
  end.

(** [pd.concat([detections, camera_metadata, pitch_metadata])] of the
    three encodings of copies of the tables. *)
Definition concat_encodings (w : World) : list Prediction :=
  let detections := soccernet_encoding_object (copy (detections w)) in
  let camera_metadata := soccernet_encoding_camera (copy (image_metadatas w)) in
  let pitch_metadata := soccernet_encoding_pitch (copy (image_metadatas w)) in
  detections ++ camera_metadata ++ pitch_metadata.

Definition save_in_soccernet_format (save_folder : path)
    (is_ground_truth save_zip : bool) (w : World) : World * result () :=
  if is_ground_truth then (w, Ok ())
  else
    let save_path := save_folder in
    let w := makedirs save_path w in
    let predictions := concat_encodings w in
    match zip_path save_path with
    | Raise e => (w, Raise e)
    | Ok zf_save_path =>
        (foldl (soccernet_video save_path zf_save_path save_zip predictions)
               w (video_metadatas w), Ok ())
    end.

(** *** Line format *)

(** A row of the merged table after
    [dropna(subset=["frame", "track_id", bbox_column], how="any")], with
    the derived columns. *)
Record MotRow : Type :=
  { r_image : Image;
    r_detection : Detection;
    r_frame : Z;
    r_track_id : Z;
    r_bbox : Box }.

Definition bb_left (r : MotRow) : float := x0 (r_bbox r).
Definition bb_top (r : MotRow) : float := x1 (r_bbox r).
Definition bb_width (r : MotRow) : float := x2 (r_bbox r).
Definition bb_height (r : MotRow) : float := x3 (r_bbox r).

(** The column [video_id] of the merged table is the left table's. *)
Definition r_video_id (r : MotRow) : Z := im_video_id (r_image r).

(** [pd.merge(left, right, left_on="id", right_on="image_id")]: inner
    join, in the order of the left keys. *)
Definition merge (left : list Image) (right : list Detection) : list (Image * Detection) :=
  i ← left; d ← filter (λ d, im_id i = Some (image_id d)) right; [(i, d)].

Definition complete (bbox_column : Detection → option Box)
    (r : Image * Detection) : option MotRow :=
  match frame r.1, track_id r.2, bbox_column r.2 with
  | Some f, Some t, Some b =>
      Some {| r_image := r.1; r_detection := r.2;
              r_frame := f; r_track_id := t; r_bbox := b |}
  | _, _, _ => None
  end.

(** [image_metadatas["id"] = image_metadatas.index] *)
Definition set_id (i : Image) : Image :=
  {| im_index := im_index i; im_id := Some (im_index i); frame := frame i;
     im_video_id := im_video_id i; parameters := parameters i;
     relative_mean_reproj := relative_mean_reproj i;
     accuracy_at_5 := accuracy_at_5 i; lines := lines i |}.

(** [_mot_encoding]: the table returned and the world left behind. *)
Definition _mot_encoding (bbox_column : Detection → option Box)
    (w : World) : list MotRow * World :=
  let detections := copy (detections w) in
  let w := set_image_metadatas (map set_id (image_metadatas w)) w in
  let df := merge (image_metadatas w) detections in
  let df := omap (complete bbox_column) df in
  (df, w).

(** [file_df["frame"].min()]; the minimum of no rows is NaN. *)
Definition frame_min (file_df : list MotRow) : option Z :=
  match map r_frame file_df with
  | [] => None
  | f :: fs => Some (foldr Z.min f fs)
  end.

Definition add_frame (k : Z) (r : MotRow) : MotRow :=
  {| r_image := r_image r; r_detection := r_detection r;
     r_frame := r_frame r + k; r_track_id := r_track_id r;
     r_bbox := r_bbox r |}.

Definition frame_le (a b : MotRow) : Prop := (r_frame a ≤ r_frame b)%Z.

#[export] Instance frame_le_dec (a b : MotRow) : Decision (frame_le a b).
Proof. unfold frame_le. apply _. Defined.

(** The ten columns written; the eighth is [category_id] or [x = -1]. *)
Definition to_csv (save_classes : bool) (r : MotRow) : Line :=
  {| l_frame := r_frame r;
     l_track_id := r_track_id r;
     l_bb_left := bb_left r;
     l_bb_top := bb_top r;
     l_bb_width := bb_width r;
     l_bb_height := bb_height r;
     l_bbox_conf := bbox_conf (r_detection r);
     l_class := if save_classes then category_id (r_detection r) else Some (-1)%Z;
     l_y := -1;
     l_z := -1 |}.

(** [mot_df[mot_df["video_id"] == id]] with the frames shifted when the
    least of them is 0. *)
Definition file_df (mot_df : list MotRow) (id : Z) : list MotRow :=
  let file_df := filter (λ r, r_video_id r = id) mot_df in
  if decide (frame_min file_df = Some 0%Z) then map (add_frame 1) file_df
  else file_df.

(** The body of the loop over [video_metadatas.iterrows()]. *)
Definition mot_video (save_path : path) (save_classes : bool)
    (mot_df : list MotRow) (w : World) (video : Video) : World :=
  let file_path := save_path ++ [name video +:+ ".txt"] in
  match file_df mot_df (vid_index video) with
  | [] => write_file file_path (Text []) w
  | (_ :: _) as df =>
      write_file file_path (Text (map (to_csv save_classes) (merge_sort frame_le df))) w
  end.

Definition save_in_mot_challenge_format (save_folder : path)
    (bbox_column_for_eval : Detection → option Box)
    (save_classes is_ground_truth : bool) (w : World) : World * result () :=
  let '(mot_df, w) := _mot_encoding bbox_column_for_eval w in
  let save_path := save_folder in
  let w := makedirs save_path w in
  (foldl (mot_video save_path save_classes mot_df) w (video_metadatas w), Ok ()).

(** *** Sample tables *)

Definition sample_box : Box :=
  {| x0 := 10; x1 := 20; x2 := 30; x3 := 40 |}.

(** A detection with both boxes; the track_id is the caller's. *)
Definition sample_detection (index image_id video_id : Z) (track_id : option Z) : Detection :=
  {| index := index; image_id := image_id; video_id := video_id;
     track_id := track_id; bbox_ltwh := Some sample_box;
     bbox_pitch := Some (JDict []); bbox_conf := Some 1%float;
     category_id := Some 1%Z; role := None; jersey_number := None;
     team := None |}.

(** A frame that has no column ["id"] yet. *)
Definition sample_image (index frame video_id : Z) : Image :=
  {| im_index := index; im_id := None; frame := Some frame;
     im_video_id := video_id; parameters := None;
     relative_mean_reproj := None; accuracy_at_5 := None; lines := None |}.

Definition sample_video (index : Z) (name : string) : Video :=
  {| vid_index := index; name := name; nframes := 3 |}.

(** The three tables over an empty file system. *)
Definition sample_world (ds : list Detection) (ims : list Image)
    (vs : list Video) : World :=
  {| detections := ds; image_metadatas := ims; video_metadatas := vs;
     dirs := ∅; files := ∅; archives := ∅ |}.

End Trackeval.

(** ** The evaluator and the report (same source file) *)

Module Evaluator.
Import Py Trackeval.

(** An exception of this part: a missing key, or one raised below. *)
Inductive failure : Type :=
| KeyError (key : string)
| Raised (e : exn).

Inductive attempt (A : Type) : Type :=
| Done (a : A)
| Failed (f : failure).
Arguments Done {A} a.
Arguments Failed {A} f.

#[export] Instance attempt_bind : MBind attempt := λ A B k r,
  match r with
  | Done a => k a
  | Failed f => Failed f
  end.

Definition lift {A} (r : result A) : attempt A :=
  match r with
  | Ok a => Done a
  | Raise e => Failed (Raised e)
  end.

Fixpoint for_each {A B} (f : A → attempt B) (l : list A) : attempt (list B) :=
  match l with
  | [] => Done []
  | x :: l' => y ← f x; ys ← for_each f l'; Done (y :: ys)
  end.

(** A [dict] with text keys, in insertion order; the keys are distinct. *)
Definition dict (V : Type) : Type := list (string * V).

(** [d[key]] *)
Fixpoint getitem {V} (d : dict V) (key : string) : attempt V :=
  match d with
  | [] => Failed (KeyError key)
  | (k, v) :: d' => if decide (k = key) then Done v else getitem d' key
  end.

(** [dict.keys()] *)
Definition keys {V} (d : dict V) : list string := map fst d.

(** *** [_print_results] *)

(** A cell handed to [tabulate]: a sequence name or a rendered metric. *)
Inductive entry : Type :=
| Name (s : string)
| Value (r : rendered).

(** What one [log.info] call gets: the title line and the table given
    to [tabulate]. *)
Record table : Type :=
  { title : string;
    headers : list string;
    data : list (list entry) }.

(** [[format_metric(name, res[name], scale_factor) for name in headers]] *)
Definition format_row (headers : list string) (res : dict float)
    (scale_factor : float) : attempt (list rendered) :=
  for_each (λ name, v ← getitem res name; lift (format_metric name v scale_factor))
    headers.

(** The tables logged, in order, and the exception that ended the call,
    if one did. *)
Definition _print_results (res_combined : dict float)
    (res_by_video : option (dict (dict float))) (scale_factor : float)
    (title : string) (print_by_video : bool) : list table * option failure :=
  let headers := keys res_combined in
  match format_row headers res_combined scale_factor with
  | Failed f => ([], Some f)
  | Done data =>
      let logged :=
        [{| title := title; headers := headers; data := [map Value data] |}] in
      match print_by_video, res_by_video with
      | true, Some ((_ :: _) as by_video) =>
          match for_each (λ '(video_name, res),
                   video_data ← format_row headers res scale_factor;
                   Done (Name video_name :: map Value video_data)) by_video with
          | Failed f => (logged, Some f)
          | Done data =>
              (logged ++ [{| title := title +:+ " by videos";
                             headers := "video" :: headers;
                             data := data |}], None)
          end
      | _, _ => (logged, None)
      end
  end.

(** *** [TrackEvalEvaluator.run] *)

(** A value of a configuration mapping. *)
Inductive cfgval : Type :=
| VStr (s : string)
| VPath (p : path)
| VBool (b : bool)
| VNum (f : float)
| VNames (names : list string)
| VSeqInfo (nframes : gmap string Z).

(** [cfg]: [cfg.dataset] holds the two folders and further items. *)
Record Cfg : Type :=
  { TRACKERS_FOLDER : path;
    GT_FOLDER : path;
    dataset_more : list (string * cfgval);
    bbox_column_for_eval : Detection → option Box;
    save_gt : bool;
    metrics : list string;
    eval_items : list (string * cfgval) }.

(** [cfg.dataset.items()] *)
Definition dataset_items (cfg : Cfg) : list (string * cfgval) :=
  ("TRACKERS_FOLDER", VPath (TRACKERS_FOLDER cfg))
  :: ("GT_FOLDER", VPath (GT_FOLDER cfg)) :: dataset_more cfg.

(** The evaluator object; [class_name] is
    [trackeval_dataset_class.__name__]. *)
Record Self : Type :=
  { cfg : Cfg;
    eval_set : string;
    trackeval_dataset_name : string;
    class_name : string;
    show_progressbar : bool;
    dataset_path : path }.

(** [save_functions]: the encoders by name, called as [run] calls them
    (the document format with its default [save_zip=True]). *)
Definition save_functions (key : string) :
    option (path → (Detection → option Box) → bool → bool → World → World * result ()) :=
  if decide (key = "MotChallenge2DBox") then
    Some save_in_mot_challenge_format
  else if decide (key = "SoccerNetGS") then
    Some (λ save_folder _ _ is_ground_truth,
            save_in_soccernet_format save_folder is_ground_truth true)
  else None.

(** An encoder called on another detections table of the caller. *)
Definition on_detections (ds : list Detection)
    (save : World → World * result ()) (w : World) : World * result () :=
  let '(w', r) :=
    save {| detections := ds; image_metadatas := image_metadatas w;
            video_metadatas := video_metadatas w; dirs := dirs w;
            files := files w; archives := archives w |} in
  ({| detections := detections w; image_metadatas := image_metadatas w';
      video_metadatas := video_metadatas w'; dirs := dirs w';
      files := files w'; archives := archives w' |}, r).

(** [video_metadatas.set_index('name')['nframes'].to_dict()] *)
Definition seq_info (videos : list Video) : gmap string Z :=
  foldl (λ m v, <[name v := nframes v]> m) ∅ videos.

(** [for key, value in items: config[key] = value] *)
Definition update (config : gmap string cfgval) (items : list (string * cfgval)) :
    gmap string cfgval :=
  foldl (λ m kv, <[kv.1 := kv.2]> m) config items.

(** The dataset description built by [run] from the class defaults. *)
Definition dataset_config (self : Self) (defaults : gmap string cfgval)
    (videos : list Video) : gmap string cfgval :=
  let config := <["SEQ_INFO" := VSeqInfo (seq_info videos)]> defaults in
  let config := <["BENCHMARK" := VStr (class_name self)]> config in
  let config := update config (dataset_items (cfg self)) in
  if save_gt (cfg self) then config
  else
    <["GT_LOC_FORMAT" := VStr "{gt_folder}/{seq}/Labels-GameState.json"]>
      (<["GT_FOLDER" := VPath (dataset_path self)]> config).

Definition metrics_config (self : Self) : gmap string cfgval :=
  {[ "METRICS" := VNames (metrics (cfg self));
     "PRINT_CONFIG" := VBool false;
     "THRESHOLD" := VNum 0.5%float ]}.

Section Engine.
(** The external metrics engine: the metric classes by name, the
    defaults of the dataset class and of the evaluator, and the
    evaluation itself with the summaries it returns. *)
Context {Metric Summaries : Type}.
Variable catalog : string → option (gmap string cfgval → Metric).
Variable get_default_dataset_config : gmap string cfgval.
Variable get_default_eval_config : gmap string cfgval.
Variable evaluate :
  gmap string cfgval → gmap string cfgval → list Metric → bool →
  World → World * attempt Summaries.

(** The loop over [cfg.metrics]: a name the engine does not know is
    skipped with a warning. *)
Definition metrics_list (self : Self) : list Metric :=
  foldl (λ acc metric_name,
           match catalog metric_name with
           | Some metric => acc ++ [metric (metrics_config self)]
           | None => acc
           end) [] (metrics (cfg self)).

Inductive report : Type :=
| NoGroundTruth
| Logged (combined_results : Summaries).

(** [run(tracker_state)]: [w] holds [tracker_state.detections_pred] as
    its detections, [detections_gt] is [tracker_state.detections_gt]. *)
Definition run (self : Self) (detections_gt : option (list Detection))
    (w : World) : World * attempt report :=
  let tracker_name := "tracklab" in
  let save_classes := negb (String.eqb (class_name self) "MotChallenge2DBox") in
  let pred_save_path :=
    TRACKERS_FOLDER (cfg self)
    ++ [class_name self +:+ "-" +:+ eval_set self; tracker_name] in
  match save_functions (trackeval_dataset_name self) with
  | None => (w, Failed (KeyError (trackeval_dataset_name self)))
  | Some save =>
      match save pred_save_path (bbox_column_for_eval (cfg self))
              save_classes false w with
      | (w, Raise e) => (w, Failed (Raised e))
      | (w, Ok _) =>
          match detections_gt with
          | None | Some [] => (w, Done NoGroundTruth)
          | Some ((_ :: _) as gt) =>
              let saved :=
                if save_gt (cfg self) then
                  on_detections gt
                    (save (GT_FOLDER (cfg self)
                           ++ [trackeval_dataset_name self +:+ "-" +:+ eval_set self])
                       (bbox_column_for_eval (cfg self)) save_classes true) w
                else (w, Ok ()) in
              match saved with
              | (w, Raise e) => (w, Failed (Raised e))
              | (w, Ok _) =>
                  let dataset :=
                    dataset_config self get_default_dataset_config
                      (video_metadatas w) in
                  let eval_config :=
                    update get_default_eval_config (eval_items (cfg self)) in
                  match evaluate dataset eval_config (metrics_list self)
                          (show_progressbar self) w with
                  | (w, Failed f) => (w, Failed f)
                  | (w, Done combined_results) => (w, Done (Logged combined_results))
                  end
              end
          end
      end
  end.

End Engine.

(** *** Reading of the tables, and samples *)

(** A detection that the line format can encode: it has a track_id and
    a box in the evaluated column, and its frame is in the frame metadata
    with a frame number. *)
Definition encodable (bbox_column : Detection → option Box)
    (images : list Image) (d : Detection) : Prop :=
  (is_Some (track_id d) ∧ is_Some (bbox_column d))
  ∧ Exists (λ i, im_index i = image_id d ∧ is_Some (frame i)) images.

#[export] Instance encodable_dec bbox_column images d :
  Decision (encodable bbox_column images d).
Proof. unfold encodable. apply _. Defined.

Definition sample_cfg (save_gt : bool) : Cfg :=
  {| TRACKERS_FOLDER := ["out"]; GT_FOLDER := ["gt"]; dataset_more := [];
     bbox_column_for_eval := bbox_ltwh; save_gt := save_gt;
     metrics := ["HOTA"; "Unknown"]; eval_items := [] |}.

Definition sample_self (format : string) (save_gt : bool) : Self :=
  {| cfg := sample_cfg save_gt; eval_set := "valid";
     trackeval_dataset_name := format; class_name := format;
     show_progressbar := false; dataset_path := ["data"] |}.

(** An engine that knows the metric HOTA and returns no summary. *)
Definition sample_catalog (metric_name : string) :
    option (gmap string cfgval → string) :=
  if decide (metric_name = "HOTA") then Some (λ _, "HOTA") else None.

Definition sample_evaluate (dataset eval_config : gmap string cfgval)
    (metrics : list string) (show_progressbar : bool) (w : World) :
    World * attempt (dict float) :=
  (w, Done []).

End Evaluator.

(** * Properties *)

Import Py.

(** ** Python strings and numbers *)

Lemma append_nil (s : string) : "" +:+ s = s.
Proof. reflexivity. Qed.

Lemma append_cons (c : Ascii.ascii) (a s : string) :
  String c a +:+ s = String c (a +:+ s).
Proof. reflexivity. Qed.

Lemma prefix_append (a s : string) :
  String.prefix a s = true ↔ ∃ q, s = a +:+ q.
Proof.
  revert s. induction a as [|c a IH]; intros s.
  - split; [intros _; exists s; reflexivity | intros _; by destruct s].
  - setoid_rewrite append_cons. destruct s as [|c' s].
    + split; [done | intros [q Hq]; discriminate].
    + simpl. destruct (Ascii.ascii_dec c c') as [->|Hne].
      * rewrite IH. split; intros [q Hq]; exists q; congruence.
      * split; [done | intros [q Hq]; congruence].
Qed.

Lemma contains_nil (sub : string) :
  contains sub "" = String.prefix sub "" || false.
Proof. reflexivity. Qed.

Lemma contains_cons (sub : string) (c : Ascii.ascii) (s : string) :
  contains sub (String c s) = String.prefix sub (String c s) || contains sub s.
Proof. reflexivity. Qed.

Lemma contains_Substring (sub s : string) :
  contains sub s = true ↔ Substring sub s.
Proof.
  induction s as [|c s IH].
  - rewrite contains_nil, orb_false_r, prefix_append. split.
    + intros [q Hq]. by exists "", q.
    + intros ([|? p] & q & Hq); [by exists q | discriminate].
  - rewrite contains_cons, orb_true_iff, IH, prefix_append. split.
    + intros [[q Hq] | (p & q & ->)].
      * by exists "", q.
      * by exists (String c p), q.
    + intros ([|c' p] & q & Hq).
      * left. by exists q.
      * right. exists p, q. rewrite append_cons in Hq. congruence.
Qed.

Lemma contains_not_Substring (sub s : string) :
  contains sub s = false ↔ ¬ Substring sub s.
Proof. rewrite <- contains_Substring. by destruct (contains sub s). Qed.

(** [int] of a finite float is its value rounded toward zero. *)
Lemma int_Qtrunc (x : float) (q : Q) :
  value_of x = Some q → int x = Ok (Qtrunc q).
Proof.
  unfold value_of, int. destruct (Prim2SF x) as [b|b| |b m e]; try done.
  - intros [= <-]. done.
  - intros [= <-]. f_equal. destruct (Z.leb_spec 0 e) as [He|He].
    + assert (0 < 2 ^ e)%Z by (apply Z.pow_pos_nonneg; lia).
      unfold Qtrunc, Qceiling, Qle_bool, Qfloor; simpl.
      rewrite !Z.mul_1_r, !Z.div_1_r.
      destruct b, (Z.leb_spec 0 (Z.neg m * 2 ^ e)), (Z.leb_spec 0 (Z.pos m * 2 ^ e));
        try lia; try nia.
    + assert (Hd : Z.pos (2 ^ Z.to_pos (- e)) = (2 ^ (- e))%Z).
      { rewrite Pos2Z.inj_pow, Z2Pos.id by lia. done. }
      unfold Qtrunc, Qceiling, Qle_bool, Qfloor, Qopp; simpl Qnum; simpl Qden.
      rewrite Hd, Z.mul_0_l, Z.mul_1_r. by destruct b.
Qed.

(** Rounding toward zero: the integer lies between zero and the number,
    less than one away from it. *)
Lemma Qtrunc_toward_zero (q : Q) :
  (0 <= q → inject_Z (Qtrunc q) <= q ∧ q < inject_Z (Qtrunc q + 1))%Q
  ∧ (q <= 0 → q <= inject_Z (Qtrunc q) ∧ inject_Z (Qtrunc q - 1) < q)%Q.
Proof.
  unfold Qtrunc. destruct (Qle_bool 0 q) eqn:E.
  - apply Qle_bool_iff in E. split; intros Hq.
    + split; [apply Qfloor_le | apply Qlt_floor].
    + assert (Hz : (q == 0)%Q) by (by apply Qle_antisym).
      rewrite (Qfloor_comp _ _ Hz). rewrite Hz. done.
  - assert (Hneg : (q < 0)%Q).
    { apply Qnot_le_lt. intros Hle. apply Qle_bool_iff in Hle. congruence. }
    split; intros Hq.
    + exfalso. eapply Qlt_irrefl, Qlt_le_trans; eauto.
    + split; [apply Qle_ceiling | apply Qceiling_lt].
Qed.

(** ** Report Reducer *)

Import Trackeval.

Local Open Scope float_scope.

Lemma count_like_branch (metric_name : string) :
  count_like metric_name →
  contains "TP" metric_name || contains "FN" metric_name
  || contains "FP" metric_name || contains "TN" metric_name = true
  ∧ String.eqb metric_name "MOTP" = false.
Proof.
  intros [Hsub Hne]. split.
  - rewrite !orb_true_iff, !contains_Substring. tauto.
  - by apply String.eqb_neq.
Qed.

Lemma format_metric_count (metric_name : string) (metric_value scale_factor : float) :
  count_like metric_name →
  format_metric metric_name metric_value scale_factor
  = (z ← int metric_value; Ok (RInt z)).
Proof.
  intros [Hb Hn]%count_like_branch. unfold format_metric. by rewrite Hb, Hn.
Qed.




(** C10: for a count-like name the value is cut toward zero, never
    rounded, and the scale factor plays no part: a finite value is
    rendered as the integer between zero and the value that is less
    than one away from it.  120.9 gives 120 (and -120.9 gives -120),
    where rounding would give 121. *)
Theorem format_metric_truncates :
  (∀ (metric_name : string) (metric_value scale_factor : float) (q : Q),
     count_like metric_name →
     value_of metric_value = Some q →
     format_metric metric_name metric_value scale_factor = Ok (RInt (Qtrunc q))
     ∧ (0 <= q → inject_Z (Qtrunc q) <= q ∧ q < inject_Z (Qtrunc q + 1))%Q
     ∧ (q <= 0 → q <= inject_Z (Qtrunc q) ∧ inject_Z (Qtrunc q - 1) < q)%Q
     ∧ ∀ scale_factor' : float,
         format_metric metric_name metric_value scale_factor'
         = format_metric metric_name metric_value scale_factor)
  ∧ format_metric "CLR_TP" 120.9 100 = Ok (RInt 120)
  ∧ format_metric "CLR_FN" (-120.9) 100 = Ok (RInt (-120))
  ∧ Np.rint 120.9 = 121.
Proof.
  split; [| repeat split; vm_compute; reflexivity].
  intros metric_name metric_value scale_factor q Hc Hq.
  split; [| split; [| split]].
  - rewrite (format_metric_count _ _ _ Hc), (int_Qtrunc _ _ Hq). reflexivity.
  - apply Qtrunc_toward_zero.
  - apply Qtrunc_toward_zero.
  - intros s'. by rewrite !(format_metric_count _ _ _ Hc).
Qed.

Lemma format_metric_truncates_witness :
  count_like "CLR_TP"
  ∧ value_of 120.9 = Some (Qmake 8507581171079578 (2 ^ 46))
  ∧ format_metric "CLR_TP" 120.9 1
    = Ok (RInt (Qtrunc (Qmake 8507581171079578 (2 ^ 46)))).
Proof.
  assert (H1 : count_like "CLR_TP").
  { split; [| discriminate]. left. apply contains_Substring. reflexivity. }
  assert (H2 : value_of 120.9 = Some (Qmake 8507581171079578 (2 ^ 46))).
  { vm_compute. reflexivity. }
  split; [exact H1 |]. split; [exact H2 |].
  exact (proj1 (proj1 format_metric_truncates "CLR_TP" 120.9 1 _ H1 H2)).
Defined.

(** ** Record model *)

Import Pbtrack.


Section Views.
Context {num : Type} `{Scalar num}.







Lemma Series_apply_one {A B} (f : lambda A B) (kwds : list string) (x : A) :
  (∃ e, Series_apply f kwds [x] = Raise e)
  ∨ (∃ y, Series_apply f kwds [x] = Ok [y]).
Proof.
  unfold Series_apply. simpl. destruct (call f x kwds) as [y|e]; simpl; eauto.
Qed.

Lemma one_row_item {B} (wrap : B → cell num) (r : result (list B)) :
  ((∃ e, r = Raise e) ∨ (∃ y, r = Ok [y])) →
  (s ← (s ← r; Ok (map wrap s)); item s)
  = (s ← (s ← r; Ok (map wrap s));
     match s !! 0%nat with
     | Some v => Ok v
     | None => Raise IndexError
     end).
Proof. by intros [[e ->] | [y ->]]. Qed.

(** C4: reading [bbox_ltrb], [bbox_cmwh] or [keypoints_bbox_xyc] on one
    record gives what the one-row collection of that record gives at its
    only row (an exception raised there included); on a record with the
    box (l, t, w, h) the two box views are read with their values. *)
Theorem Detection_getattr_one_row (d : Detection num) :
  Detection_getattr d "bbox_ltrb"
  = via_one_row_collection (λ c, s ← bbox_ltrb c; Ok (map CArray s)) d
  ∧ Detection_getattr d "bbox_cmwh"
    = via_one_row_collection (λ c, s ← bbox_cmwh c; Ok (map CArray s)) d
  ∧ Detection_getattr d "keypoints_bbox_xyc"
    = via_one_row_collection
        (λ c, s ← keypoints_bbox_xyc c; Ok (map CKeypoints s)) d
  ∧ (∀ b, bbox d = Some (ltwh b) →
       Detection_getattr d "bbox_ltrb" = Ok (CArray (ltrb_formula b))
       ∧ Detection_getattr d "bbox_cmwh" = Ok (CArray (cmwh_formula b))).
Proof.
  assert (Hltrb : Detection_getattr d "bbox_ltrb"
            = via_one_row_collection (λ c, s ← bbox_ltrb c; Ok (map CArray s)) d).
  { unfold Detection_getattr, via_one_row_collection, to_frame_T.
    apply one_row_item, Series_apply_one. }
  assert (Hcmwh : Detection_getattr d "bbox_cmwh"
            = via_one_row_collection (λ c, s ← bbox_cmwh c; Ok (map CArray s)) d).
  { unfold Detection_getattr, via_one_row_collection, to_frame_T.
    apply one_row_item, Series_apply_one. }
  split; [exact Hltrb |]. split; [exact Hcmwh |]. split.
  - unfold Detection_getattr, via_one_row_collection, to_frame_T.
    apply one_row_item, Series_apply_one.
  - intros b Hb. rewrite Hltrb, Hcmwh.
    unfold via_one_row_collection, bbox_ltrb, bbox_cmwh. cbn [map].
    rewrite Hb. by destruct b as [[[l t] w] h].
Qed.

Lemma keypoints_bbox_xyc_cons (d : Detection num) (self : Detections num) :
  keypoints_bbox_xyc (d :: self) = Raise TypeError.
Proof. reflexivity. Qed.

End Views.

(** C5: on every collection that has a row, [keypoints_bbox_xyc] raises
    a [TypeError] (the keyword [axis] is handed to a lambda of one
    parameter by [Series.apply]) instead of giving the keypoints in box
    coordinates; so it does on one row with box (10, 20, 30, 40) and
    keypoint (15, 25, 1). *)
Theorem keypoints_bbox_xyc_raises :
  (∀ (num : Type) (S : Scalar num) (d : Detection num) (self : Detections num),
     keypoints_bbox_xyc (d :: self) = Raise TypeError)
  ∧ keypoints_bbox_xyc
      [{| image_id := 0; id := 0; bbox := Some [10; 20; 30; 40];
          keypoints_xyc := Some [[15; 25; 1]]; track_id := None;
          person_id := None; category_id := None |}]
    = Raise TypeError
  ∧ kp_img_to_kp_bbox [[15; 25; 1]] [10; 20; 30; 40] = Ok [[5; 5; 1]].
Proof.
  split; [intros; apply keypoints_bbox_xyc_cons |].
  split; vm_compute; reflexivity.
Qed.


Lemma Detection_getattr_one_row_witness :
  bbox (of_box [10; 20; 30; 40]) = Some (ltwh (10, 20, 30, 40))
  ∧ Detection_getattr (of_box [10; 20; 30; 40]) "bbox_ltrb"
    = Ok (CArray [10; 20; 40; 60])
  ∧ Detection_getattr (of_box [10; 20; 30; 40]) "bbox_cmwh"
    = Ok (CArray [25; 40; 30; 40]).
Proof.
  split; [reflexivity |].
  exact (proj2 (proj2 (proj2 (Detection_getattr_one_row (of_box [10; 20; 30; 40]))))
           (10, 20, 30, 40) eq_refl).
Defined.

(** binary64 additions round: two boxes that differ have the same
    left-top-right-bottom view, so no re-derivation can give back
    both. *)
Lemma bbox_ltrb_not_injective :
  bbox_ltrb [of_box [1024; 0; 0x1p-44; 0]] = bbox_ltrb [of_box [1024; 0; 0; 0]]
  ∧ (0x1p-44 =? 0) = false.
Proof. split; vm_compute; reflexivity. Qed.


(** ** Encoders: shared facts *)

Import Trackeval.

Local Close Scope float_scope.

Lemma length_append (a s : string) :
  String.length (a +:+ s) = String.length a + String.length s.
Proof. induction a as [|c a IH]; [done |]. rewrite append_cons. simpl. lia. Qed.

Lemma append_suffix_inj (s a b : string) : a +:+ s = b +:+ s → a = b.
Proof.
  revert b. induction a as [|c a IH]; intros [|c' b] Heq; [done | | |].
  - apply (f_equal String.length) in Heq.
    rewrite append_nil, append_cons in Heq. simpl in Heq.
    rewrite length_append in Heq. lia.
  - apply (f_equal String.length) in Heq.
    rewrite append_nil, append_cons in Heq. simpl in Heq.
    rewrite length_append in Heq. lia.
  - rewrite !append_cons in Heq. injection Heq as -> Heq.
    f_equal. by apply IH.
Qed.

Lemma file_path_inj (save_path : path) (ext a b : string) :
  save_path ++ [a +:+ ext] = save_path ++ [b +:+ ext] → a = b.
Proof.
  intros Heq%app_inv_head. injection Heq as Heq. by apply append_suffix_inj in Heq.
Qed.

(** A loop that writes one file per sequence leaves, at the path of a
    sequence whose name no sequence of other content shares, the content
    of that sequence. *)
Lemma foldl_write_lookup (path_of : Video → path) (content : Video → file)
    (videos : list Video) (w : World) (video : Video) :
  video ∈ videos →
  (∀ v, v ∈ videos → path_of v = path_of video → content v = content video) →
  files (foldl (λ w v, write_file (path_of v) (content v) w) w videos)
    !! path_of video = Some (content video).
Proof.
  induction videos as [|v videos IH] using rev_ind; intros Hin Hsame.
  - by apply elem_of_nil in Hin.
  - rewrite foldl_snoc. unfold write_file at 1. simpl.
    destruct (decide (path_of v = path_of video)) as [Heq|Hne].
    + rewrite Heq, lookup_insert_eq. f_equal. apply Hsame; [| done].
      apply elem_of_app. right. by left.
    + rewrite lookup_insert_ne by done.
      apply elem_of_app in Hin as [Hin|Hin%list_elem_of_singleton]; [| by subst].
      apply IH; [done |]. intros v' Hv'. apply Hsame, elem_of_app. by left.
Qed.

Lemma foldl_steps {A B} (f g : A → B → A) (l : list B) (a : A) :
  (∀ a x, f a x = g a x) → foldl f a l = foldl g a l.
Proof.
  intros Hfg. revert a. induction l as [|x l IH]; intros a; [done |].
  simpl. by rewrite Hfg, IH.
Qed.

Lemma foldl_tables (step : World → Video → World) (videos : list Video) (w : World) :
  (∀ w v, detections (step w v) = detections w
          ∧ image_metadatas (step w v) = image_metadatas w
          ∧ video_metadatas (step w v) = video_metadatas w) →
  detections (foldl step w videos) = detections w
  ∧ image_metadatas (foldl step w videos) = image_metadatas w
  ∧ video_metadatas (foldl step w videos) = video_metadatas w.
Proof.
  intros Hstep. revert w. induction videos as [|v videos IH]; intros w; [done |].
  simpl. destruct (IH (step w v)) as (-> & -> & ->). apply Hstep.
Qed.

Lemma zip_append_tables (zf p arc : path) (w : World) :
  detections (zip_append zf p arc w) = detections w
  ∧ image_metadatas (zip_append zf p arc w) = image_metadatas w
  ∧ video_metadatas (zip_append zf p arc w) = video_metadatas w
  ∧ files (zip_append zf p arc w) = files w
  ∧ dirs (zip_append zf p arc w) = dirs w.
Proof. unfold zip_append. by destruct (files w !! p). Qed.

Lemma soccernet_video_tables (save_path zf : path) (save_zip : bool)
    (predictions : list Prediction) (w : World) (v : Video) :
  detections (soccernet_video save_path zf save_zip predictions w v) = detections w
  ∧ image_metadatas (soccernet_video save_path zf save_zip predictions w v)
    = image_metadatas w
  ∧ video_metadatas (soccernet_video save_path zf save_zip predictions w v)
    = video_metadatas w.
Proof.
  unfold soccernet_video.
  destruct (of_video predictions (vid_index v)); [done |].
  destruct save_zip; [| done].
  match goal with |- context [zip_append ?a ?b ?c ?d] =>
    destruct (zip_append_tables a b c d) as (-> & -> & -> & _) end.
  done.
Qed.

Lemma mot_video_tables (save_path : path) (save_classes : bool)
    (mot_df : list MotRow) (w : World) (v : Video) :
  detections (mot_video save_path save_classes mot_df w v) = detections w
  ∧ image_metadatas (mot_video save_path save_classes mot_df w v) = image_metadatas w
  ∧ video_metadatas (mot_video save_path save_classes mot_df w v) = video_metadatas w.
Proof. unfold mot_video. by destruct (file_df mot_df (vid_index v)). Qed.

(** What the line-format loop writes for a sequence. *)
Lemma mot_video_write (save_path : path) (save_classes : bool)
    (mot_df : list MotRow) (w : World) (v : Video) :
  mot_video save_path save_classes mot_df w v
  = write_file (save_path ++ [name v +:+ ".txt"])
      (Text (map (to_csv save_classes)
               (merge_sort frame_le (file_df mot_df (vid_index v))))) w.
Proof. unfold mot_video. by destruct (file_df mot_df (vid_index v)). Qed.

Lemma save_in_mot_challenge_format_files (save_folder : path)
    (bbox_column : Detection → option Box) (save_classes is_ground_truth : bool)
    (w : World) (video : Video) :
  video ∈ video_metadatas w →
  (∀ v, v ∈ video_metadatas w → name v = name video → vid_index v = vid_index video) →
  files (save_in_mot_challenge_format save_folder bbox_column save_classes
           is_ground_truth w).1
    !! (save_folder ++ [name video +:+ ".txt"])
  = Some (Text (map (to_csv save_classes)
                  (merge_sort frame_le
                     (file_df (_mot_encoding bbox_column w).1 (vid_index video))))).
Proof.
  intros Hin Huniq. unfold save_in_mot_challenge_format. simpl.
  set (mot_df := omap _ _).
  rewrite (foldl_steps _ (λ w v, write_file (save_folder ++ [name v +:+ ".txt"])
             (Text (map (to_csv save_classes)
                      (merge_sort frame_le (file_df mot_df (vid_index v))))) w))
    by (intros; apply mot_video_write).
  apply (foldl_write_lookup (λ v, save_folder ++ [name v +:+ ".txt"])
           (λ v, Text (map (to_csv save_classes)
                         (merge_sort frame_le (file_df mot_df (vid_index v))))));
    [done |].
  intros v Hv Hpath%file_path_inj. by rewrite (Huniq v Hv Hpath).
Qed.

(** ** Document format *)

Lemma mandatory_is_Some (d : Trackeval.Detection) :
  is_Some (mandatory d) ↔ has_mandatory d.
Proof.
  unfold mandatory, has_mandatory.
  destruct (track_id d), (bbox_ltwh d), (bbox_pitch d);
    split; intros H; try done;
    try (by destruct H as [? ?]);
    try (destruct H as ([? ?] & [? ?] & [? ?]); done).
Qed.

Lemma mandatory_row (d : Trackeval.Detection) (m : Mandatory) :
  mandatory d = Some m → m_row m = d.
Proof.
  unfold mandatory.
  destruct (track_id d), (bbox_ltwh d), (bbox_pitch d); try done.
  by intros [= <-].
Qed.

Lemma dropna_object_rows (df : list Trackeval.Detection) :
  map m_row (dropna_object df) = filter has_mandatory df.
Proof.
  unfold dropna_object. induction df as [|d df IH]; [done |].
  rewrite filter_cons. cbn [omap list_omap].
  destruct (mandatory d) as [m|] eqn:E.
  - rewrite decide_True by (apply mandatory_is_Some; by rewrite E).
    cbn [map]. by rewrite IH, (mandatory_row d m E).
  - rewrite decide_False; [done |].
    rewrite <- mandatory_is_Some, E. by intros [? ?].
Qed.

Lemma object_row_of (d : Trackeval.Detection) (m : Mandatory) :
  mandatory d = Some m →
  p_id (object_row m) = pretty (index d)
  ∧ p_track_id (object_row m) = track_id d
  ∧ p_bbox_image (object_row m) = transform_bbox_image <$> bbox_ltwh d
  ∧ p_bbox_pitch (object_row m) = bbox_pitch d.
Proof.
  unfold mandatory.
  destruct (track_id d) eqn:E1, (bbox_ltwh d) eqn:E2, (bbox_pitch d) eqn:E3;
    try done.
  by intros [= <-].
Qed.

Lemma lacking_track_id (d : Trackeval.Detection) :
  track_id d = None → ¬ has_mandatory d.
Proof. intros E ([? H] & _). congruence. Qed.

(** C2: the object entries are, in order, the entries of exactly the
    input detections that have a track_id, an image box and a pitch box;
    each carries the identifier and the three values of its detection,
    and a detection lacking one of the three has no entry.  Of five
    detections of which two lack a track_id, three entries are made. *)
Theorem object_entries (dataframe : list Trackeval.Detection) :
  Forall2 (λ p d,
      p_id p = pretty (index d)
      ∧ p_track_id p = track_id d
      ∧ p_bbox_image p = transform_bbox_image <$> bbox_ltwh d
      ∧ p_bbox_pitch p = bbox_pitch d)
    (soccernet_encoding_object dataframe) (filter has_mandatory dataframe)
  ∧ length (soccernet_encoding_object dataframe)
    = length (filter has_mandatory dataframe)
  ∧ Forall (λ p, is_Some (p_track_id p) ∧ is_Some (p_bbox_image p)
                 ∧ is_Some (p_bbox_pitch p))
      (soccernet_encoding_object dataframe)
  ∧ (∀ d1 d2 d3 d4 d5 : Trackeval.Detection,
       has_mandatory d1 → has_mandatory d2 → has_mandatory d3 →
       track_id d4 = None → track_id d5 = None →
       length (soccernet_encoding_object [d1; d4; d2; d5; d3]) = 3).
Proof.
  assert (Hlen : ∀ df, length (soccernet_encoding_object df)
                       = length (filter has_mandatory df)).
  { intros df. unfold soccernet_encoding_object.
    rewrite <- dropna_object_rows, !length_map. done. }
  split; [| split; [apply Hlen | split]].
  - unfold soccernet_encoding_object, dropna_object.
    induction dataframe as [|d df IH]; [constructor |].
    rewrite filter_cons. cbn [omap list_omap].
    destruct (mandatory d) as [m|] eqn:E.
    + rewrite decide_True by (apply mandatory_is_Some; by rewrite E).
      cbn [map]. constructor; [by apply object_row_of | apply IH].
    + rewrite decide_False; [apply IH |].
      rewrite <- mandatory_is_Some, E. by intros [? ?].
  - unfold soccernet_encoding_object. apply Forall_forall.
    intros p (m & <- & _)%list_elem_of_In%in_map_iff. simpl. eauto.
  - intros d1 d2 d3 d4 d5 H1 H2 H3 H4%lacking_track_id H5%lacking_track_id.
    rewrite Hlen.
    rewrite filter_cons, decide_True by done.
    rewrite filter_cons, decide_False by done.
    rewrite filter_cons, decide_True by done.
    rewrite filter_cons, decide_False by done.
    rewrite filter_cons, decide_True by done.
    done.
Qed.

Lemma object_entries_witness :
  has_mandatory (sample_detection 0 0 0 (Some 4%Z))
  ∧ track_id (sample_detection 1 0 0 None) = None
  ∧ length (soccernet_encoding_object
              [sample_detection 0 0 0 (Some 4%Z); sample_detection 1 0 0 None;
               sample_detection 2 1 0 (Some 5%Z); sample_detection 3 1 0 None;
               sample_detection 4 2 0 (Some 4%Z)]) = 3.
Proof.
  assert (Hm : ∀ i j t, has_mandatory (sample_detection i j 0 (Some t))).
  { intros i j t. repeat split; eexists; reflexivity. }
  split; [apply Hm |]. split; [reflexivity |].
  apply (proj2 (proj2 (proj2 (object_entries [])))); try apply Hm; reflexivity.
Defined.

(** ** Tables and files after a call *)

Lemma save_in_soccernet_format_tables (save_folder : path)
    (is_ground_truth save_zip : bool) (w : World) :
  detections (save_in_soccernet_format save_folder is_ground_truth save_zip w).1
  = detections w
  ∧ image_metadatas (save_in_soccernet_format save_folder is_ground_truth save_zip w).1
    = image_metadatas w
  ∧ video_metadatas (save_in_soccernet_format save_folder is_ground_truth save_zip w).1
    = video_metadatas w.
Proof.
  unfold save_in_soccernet_format. destruct is_ground_truth; [done |].
  destruct (zip_path save_folder) as [zf|e]; [| done].
  cbn [fst].
  apply (foldl_tables _ _ (makedirs save_folder w)).
  intros; apply soccernet_video_tables.
Qed.

Lemma save_in_mot_challenge_format_tables (save_folder : path)
    (bbox_column : Trackeval.Detection → option Box)
    (save_classes is_ground_truth : bool) (w : World) :
  detections (save_in_mot_challenge_format save_folder bbox_column save_classes
                is_ground_truth w).1 = detections w
  ∧ video_metadatas (save_in_mot_challenge_format save_folder bbox_column
                       save_classes is_ground_truth w).1 = video_metadatas w
  ∧ image_metadatas (save_in_mot_challenge_format save_folder bbox_column
                       save_classes is_ground_truth w).1
    = map set_id (image_metadatas w).
Proof.
  unfold save_in_mot_challenge_format, _mot_encoding. cbn [fst].
  match goal with |- context [foldl ?f ?a ?l] =>
    destruct (foldl_tables f l a) as (-> & -> & ->);
      [intros; apply mot_video_tables | done] end.
Qed.

(** C7: the document-format encoder leaves the three tables as they
    were, and the line-format encoder leaves the detections and the
    sequence metadata as they were; but the line-format encoder assigns
    the column ["id"] in the caller's frame-metadata table: after a call
    on one frame of index 7 that had no such column, the table has
    changed. *)
Theorem line_format_assigns_id_column :
  (∀ (save_folder : path) (is_ground_truth save_zip : bool) (w : World),
     detections (save_in_soccernet_format save_folder is_ground_truth save_zip w).1
     = detections w
     ∧ image_metadatas (save_in_soccernet_format save_folder is_ground_truth save_zip w).1
       = image_metadatas w
     ∧ video_metadatas (save_in_soccernet_format save_folder is_ground_truth save_zip w).1
       = video_metadatas w)
  ∧ (∀ (save_folder : path) (bbox_column : Trackeval.Detection → option Box)
       (save_classes is_ground_truth : bool) (w : World),
       detections (save_in_mot_challenge_format save_folder bbox_column
                     save_classes is_ground_truth w).1 = detections w
       ∧ video_metadatas (save_in_mot_challenge_format save_folder bbox_column
                            save_classes is_ground_truth w).1 = video_metadatas w
       ∧ image_metadatas (save_in_mot_challenge_format save_folder bbox_column
                            save_classes is_ground_truth w).1
         = map set_id (image_metadatas w))
  ∧ image_metadatas
      (save_in_mot_challenge_format ["out"; "tracklab"] bbox_ltwh false false
         (sample_world [sample_detection 0 7 0 (Some 1%Z)] [sample_image 7 0 0]
            [sample_video 0 "seq"])).1
    ≠ image_metadatas
        (sample_world [sample_detection 0 7 0 (Some 1%Z)] [sample_image 7 0 0]
           [sample_video 0 "seq"]).
Proof.
  split; [apply save_in_soccernet_format_tables |].
  split; [apply save_in_mot_challenge_format_tables |].
  destruct (save_in_mot_challenge_format_tables ["out"; "tracklab"] bbox_ltwh
              false false
              (sample_world [sample_detection 0 7 0 (Some 1%Z)] [sample_image 7 0 0]
                 [sample_video 0 "seq"])) as (_ & _ & ->).
  simpl. intros [=].
Qed.

Lemma foldl_write_is_Some (path_of : Video → path) (content : Video → file)
    (videos : list Video) (w : World) (video : Video) :
  video ∈ videos →
  is_Some (files (foldl (λ w v, write_file (path_of v) (content v) w) w videos)
             !! path_of video).
Proof.
  induction videos as [|v videos IH] using rev_ind; intros Hin.
  - by apply elem_of_nil in Hin.
  - rewrite foldl_snoc. unfold write_file at 1. simpl.
    destruct (decide (path_of v = path_of video)) as [Heq|Hne].
    + rewrite Heq, lookup_insert_eq. eauto.
    + rewrite lookup_insert_ne by done.
      apply elem_of_app in Hin as [Hin|Hin%list_elem_of_singleton]; [| by subst].
      by apply IH.
Qed.

(** C6 (as the specification has it) fails: called with the ground-truth
    flag set on one sequence "seq" and no detection, the line-format
    encoder creates the file gt/seq.txt. *)
Lemma line_format_ground_truth_writes :
  ¬ (∀ (save_folder : path) (bbox_column : Trackeval.Detection → option Box)
       (save_classes : bool) (w : World),
       (save_in_mot_challenge_format save_folder bbox_column save_classes true w).1
       = w).
Proof.
  intros Hnoop.
  specialize (Hnoop ["gt"] bbox_ltwh false (sample_world [] [] [sample_video 0 "seq"])).
  apply (f_equal (λ w, files w !! ["gt"; "seq.txt"])) in Hnoop.
  change ["gt"; "seq.txt"] with (["gt"] ++ [name (sample_video 0 "seq") +:+ ".txt"])
    in Hnoop at 1.
  rewrite save_in_mot_challenge_format_files in Hnoop.
  - simpl in Hnoop. rewrite lookup_empty in Hnoop. discriminate.
  - simpl. by left.
  - by intros v ->%list_elem_of_singleton.
Qed.

(** C6 (as amended): the line-format encoder does not look at the
    ground-truth flag: with the flag set it does what it does with the
    flag unset, and so leaves a file for every sequence of the sequence
    metadata; it is the document-format encoder that, with the flag set,
    returns at once and leaves everything as it was. *)
Theorem ground_truth_flag :
  (∀ (save_folder : path) (bbox_column : Trackeval.Detection → option Box)
     (save_classes : bool) (w : World),
     save_in_mot_challenge_format save_folder bbox_column save_classes true w
     = save_in_mot_challenge_format save_folder bbox_column save_classes false w)
  ∧ (∀ (save_folder : path) (bbox_column : Trackeval.Detection → option Box)
       (save_classes : bool) (w : World) (video : Video),
       video ∈ video_metadatas w →
       is_Some (files (save_in_mot_challenge_format save_folder bbox_column
                         save_classes true w).1
                  !! (save_folder ++ [name video +:+ ".txt"])))
  ∧ (∀ (save_folder : path) (save_zip : bool) (w : World),
       save_in_soccernet_format save_folder true save_zip w = (w, Ok ())).
Proof.
  split; [done |]. split; [| done].
  intros save_folder bbox_column save_classes w video Hin.
  unfold save_in_mot_challenge_format. simpl.
  set (mot_df := omap _ _).
  rewrite (foldl_steps _ (λ w v, write_file (save_folder ++ [name v +:+ ".txt"])
             (Text (map (to_csv save_classes)
                      (merge_sort frame_le (file_df mot_df (vid_index v))))) w))
    by (intros; apply mot_video_write).
  by apply (foldl_write_is_Some (λ v, save_folder ++ [name v +:+ ".txt"])).
Qed.

Lemma ground_truth_flag_witness :
  sample_video 0 "seq" ∈ video_metadatas (sample_world [] [] [sample_video 0 "seq"])
  ∧ is_Some (files (save_in_mot_challenge_format ["gt"] bbox_ltwh false true
                      (sample_world [] [] [sample_video 0 "seq"])).1
               !! (["gt"] ++ [name (sample_video 0 "seq") +:+ ".txt"])).
Proof.
  assert (Hin : sample_video 0 "seq"
                ∈ video_metadatas (sample_world [] [] [sample_video 0 "seq"])).
  { simpl. by left. }
  split; [exact Hin |].
  exact (proj1 (proj2 ground_truth_flag) ["gt"] bbox_ltwh false _ _ Hin).
Defined.

(** ** Empty sequences *)

Lemma arcname_inj (save_path : path) (ext a b : string) :
  arcname save_path (a +:+ ext) = arcname save_path (b +:+ ext) → a = b.
Proof. unfold arcname. intros [= Heq]. by apply append_suffix_inj in Heq. Qed.

(** The document-format loop leaves alone the file and the archive
    members of a name under which no sequence has predictions. *)
Lemma soccernet_fold_untouched (save_path zf : path) (save_zip : bool)
    (predictions : list Prediction) (videos : list Video) (w : World)
    (nm : string) :
  (∀ v, v ∈ videos → name v = nm → of_video predictions (vid_index v) = []) →
  files (foldl (soccernet_video save_path zf save_zip predictions) w videos)
    !! (save_path ++ [nm +:+ ".json"])
  = files w !! (save_path ++ [nm +:+ ".json"])
  ∧ ∀ z : path,
      filter (λ e, e.1 = arcname save_path (nm +:+ ".json"))
        (default [] (archives
           (foldl (soccernet_video save_path zf save_zip predictions) w videos)
           !! z))
      = filter (λ e, e.1 = arcname save_path (nm +:+ ".json"))
          (default [] (archives w !! z)).
Proof.
  revert w. induction videos as [|v videos IH]; intros w Hempty; [done |].
  cbn [foldl].
  destruct (IH (soccernet_video save_path zf save_zip predictions w v)) as [IHf IHa].
  { intros v' Hv'. apply Hempty. by right. }
  rewrite IHf. setoid_rewrite IHa. clear IHf IHa IH.
  unfold soccernet_video.
  destruct (of_video predictions (vid_index v)) as [|p ps] eqn:E; [done |].
  assert (Hne : name v ≠ nm).
  { intros Heq. rewrite (Hempty v) in E by (done || by left). discriminate. }
  set (c := Json (merge_sort id_le (p :: ps))).
  set (fp := save_path ++ [name v +:+ ".json"]).
  assert (Hfp : fp ≠ save_path ++ [nm +:+ ".json"]).
  { intros Heq. by apply file_path_inj in Heq. }
  destruct save_zip.
  - unfold zip_append. cbn [files write_file]. rewrite lookup_insert_eq.
    cbn [files archives]. split; [by rewrite lookup_insert_ne |].
    intros z. destruct (decide (zf = z)) as [->|Hz].
    + rewrite lookup_insert_eq. cbn [from_option]. unfold Datatypes.id at 1.
      cbn [archives write_file].
      rewrite filter_app, filter_cons, decide_False, filter_nil, app_nil_r; [done |].
      cbn [fst]. intros Heq. by apply arcname_inj in Heq.
    + by rewrite lookup_insert_ne.
  - cbn [files archives write_file]. split; [by rewrite lookup_insert_ne | done].
Qed.

(** C9: a sequence with no prediction makes the document-format loop do
    nothing (no file, no archive member), and after the whole call the
    file and the archive members of its name are what they were; the
    line-format encoder leaves an empty file for a sequence with no
    row. *)
Theorem empty_sequence :
  (∀ (save_path zf : path) (save_zip : bool) (predictions : list Prediction)
     (w : World) (video : Video),
     of_video predictions (vid_index video) = [] →
     soccernet_video save_path zf save_zip predictions w video = w)
  ∧ (∀ (save_folder : path) (save_zip : bool) (w : World) (video : Video),
       (∀ v, v ∈ video_metadatas w → name v = name video →
             of_video (concat_encodings w) (vid_index v) = []) →
       files (save_in_soccernet_format save_folder false save_zip w).1
         !! (save_folder ++ [name video +:+ ".json"])
       = files w !! (save_folder ++ [name video +:+ ".json"])
       ∧ ∀ z : path,
           filter (λ e, e.1 = arcname save_folder (name video +:+ ".json"))
             (default [] (archives
                (save_in_soccernet_format save_folder false save_zip w).1 !! z))
           = filter (λ e, e.1 = arcname save_folder (name video +:+ ".json"))
               (default [] (archives w !! z)))
  ∧ (∀ (save_folder : path) (bbox_column : Trackeval.Detection → option Box)
       (save_classes is_ground_truth : bool) (w : World) (video : Video),
       video ∈ video_metadatas w →
       (∀ v, v ∈ video_metadatas w → name v = name video →
             vid_index v = vid_index video) →
       filter (λ r, r_video_id r = vid_index video) (_mot_encoding bbox_column w).1
       = [] →
       files (save_in_mot_challenge_format save_folder bbox_column save_classes
                is_ground_truth w).1
         !! (save_folder ++ [name video +:+ ".txt"])
       = Some (Text [])).
Proof.
  split; [| split].
  - intros save_path zf save_zip predictions w video E.
    unfold soccernet_video. by rewrite E.
  - intros save_folder save_zip w video Hempty.
    unfold save_in_soccernet_format.
    destruct (zip_path save_folder) as [zf|e]; [| done].
    cbn [fst].
    apply (soccernet_fold_untouched save_folder zf save_zip (concat_encodings w)
             (video_metadatas w) (makedirs save_folder w) (name video)).
    exact Hempty.
  - intros save_folder bbox_column save_classes is_ground_truth w video Hin Huniq E.
    rewrite save_in_mot_challenge_format_files by done.
    unfold file_df. rewrite E. done.
Qed.

Lemma empty_sequence_witness :
  of_video [] (vid_index (sample_video 0 "seq")) = []
  ∧ soccernet_video ["out"; "tracklab"] ["out.zip"] true []
      (sample_world [] [] [sample_video 0 "seq"]) (sample_video 0 "seq")
    = sample_world [] [] [sample_video 0 "seq"]
  ∧ files (save_in_soccernet_format ["out"; "tracklab"] false true
             (sample_world [] [] [sample_video 0 "seq"])).1
      !! (["out"; "tracklab"] ++ [name (sample_video 0 "seq") +:+ ".json"])
    = files (sample_world [] [] [sample_video 0 "seq"])
        !! (["out"; "tracklab"] ++ [name (sample_video 0 "seq") +:+ ".json"])
  ∧ files (save_in_mot_challenge_format ["out"; "tracklab"] bbox_ltwh false false
             (sample_world [] [] [sample_video 0 "seq"])).1
      !! (["out"; "tracklab"] ++ [name (sample_video 0 "seq") +:+ ".txt"])
    = Some (Text []).
Proof.
  destruct empty_sequence as (Hstep & Hdoc & Hline).
  split; [reflexivity |].
  split; [apply Hstep; reflexivity |].
  split.
  - apply (Hdoc ["out"; "tracklab"] true
             (sample_world [] [] [sample_video 0 "seq"]) (sample_video 0 "seq")).
    intros v _ _. reflexivity.
  - apply Hline.
    + simpl. by left.
    + by intros v ->%list_elem_of_singleton.
    + reflexivity.
Defined.

(** ** Line format *)


Lemma frame_le_trans : Transitive frame_le.
Proof. intros a b c. unfold frame_le. lia. Qed.

Lemma to_csv_frame (save_classes : bool) (r : MotRow) :
  l_frame (to_csv save_classes r) = r_frame r.
Proof. reflexivity. Qed.



(** The end-to-end case of the specification: one sequence, three
    detections at frames 0, 0 and 1; the file has three lines, at frames
    1, 1 and 2. *)
Example line_format_three_detections :
  (λ f, match f with
        | Some (Text rows) => Some (map l_frame rows)
        | _ => None
        end)
    (files (save_in_mot_challenge_format ["out"; "tracklab"] bbox_ltwh false false
              (sample_world
                 [sample_detection 0 0 0 (Some 1%Z); sample_detection 1 1 0 (Some 1%Z);
                  sample_detection 2 0 0 (Some 2%Z)]
                 [sample_image 0 0 0; sample_image 1 1 0] [sample_video 0 "seq"])).1
       !! ["out"; "tracklab"; "seq.txt"])
  = Some [1; 1; 2]%Z.
Proof. vm_compute. reflexivity. Qed.

(** * Further properties *)

(** ** Record model: which collections have box views *)

Section MoreViews.
Context {num : Type} `{Scalar num}.

Lemma Series_apply_mapM {A B} (f : lambda A B) (s : list A) :
  Series_apply f [] s = mapM (λ x, call f x []) s.
Proof. by destruct s. Qed.

Lemma mapM_Forall2 {A B} (f : A → result B) (l : list A) (s : list B) :
  mapM f l = Ok s ↔ Forall2 (λ x y, f x = Ok y) l s.
Proof.
  revert s. induction l as [|x l IH]; intros s; cbn [mapM].
  - split; [intros [= <-]; constructor | by intros ->%Forall2_nil_inv_l].
  - destruct (f x) as [y|e] eqn:Ey; cbn [bind].
    + destruct (mapM f l) as [ys|e] eqn:Eys; cbn [bind].
      * split.
        -- intros [= <-]. constructor; [done | by apply IH].
        -- intros (y' & s' & Hy & Hs & ->)%Forall2_cons_inv_l.
           apply IH in Hs. congruence.
      * split; [done |].
        intros (y' & s' & Hy & Hs & ->)%Forall2_cons_inv_l.
        apply IH in Hs. done.
    + split; [done |].
      intros (y' & s' & Hy & Hs & ->)%Forall2_cons_inv_l. congruence.
Qed.

Lemma mapM_app {A B} (f : A → result B) (l1 l2 : list A) (s : list B) :
  mapM f (l1 ++ l2) = Ok s
  ↔ ∃ s1 s2, s = s1 ++ s2 ∧ mapM f l1 = Ok s1 ∧ mapM f l2 = Ok s2.
Proof.
  rewrite mapM_Forall2. split.
  - intros (s1 & s2 & H1 & H2 & ->)%Forall2_app_inv_l.
    exists s1, s2. by rewrite !mapM_Forall2.
  - intros (s1 & s2 & -> & H1 & H2). apply Forall2_app; by apply mapM_Forall2.
Qed.

(** The first row on which the function raises decides the exception. *)
Lemma mapM_Raise {A B} (f : A → result B) (pre post : list A) (x : A)
    (ys : list B) (e : exn) :
  mapM f pre = Ok ys → f x = Raise e → mapM f (pre ++ x :: post) = Raise e.
Proof.
  revert ys. induction pre as [|p pre IH]; intros ys Hpre Hx; cbn [mapM app].
  - by rewrite Hx.
  - cbn [mapM] in Hpre. destruct (f p) as [y|e']; [| done]. cbn [bind] in *.
    destruct (mapM f pre) as [ys'|e']; [| done].
    by rewrite (IH ys').
Qed.

(** The lambda of [bbox_ltrb] by the number of components of the array:
    numpy broadcasts [a[:2] + a[2:]] when one side has one element. *)
Lemma ltrb_lambda_arity (a : ndarray num) :
  call ltrb_lambda (Some a) []
  = match a with
    | [] => Ok []
    | [l] => Ok [l]
    | [l; t] => Raise ValueError
    | [l; t; w] => Ok [l; t; add l w; add t w]
    | [l; t; w; h] => Ok [l; t; add l w; add t h]
    | _ => Raise ValueError
    end.
Proof.
  by destruct a as [|l [|t [|w [|h [|x rest]]]]].
Qed.

Lemma cmwh_lambda_arity (a : ndarray num) :
  call cmwh_lambda (Some a) []
  = match a with
    | [] => Ok []
    | [l] => Ok []
    | [l; t] => Raise ValueError
    | [l; t; w] => Ok [add l (halve w); add t (halve w); w]
    | [l; t; w; h] => Ok [add l (halve w); add t (halve h); w; h]
    | _ => Raise ValueError
    end.
Proof.
  by destruct a as [|l [|t [|w [|h [|x rest]]]]].
Qed.

Lemma view_lambda_returns (o : obj) :
  ((∃ r, call ltrb_lambda o [] = Ok r)
   ↔ ∃ a, o = Some a ∧ length a ≠ 2 ∧ length a < 5)
  ∧ ((∃ r, call cmwh_lambda o [] = Ok r)
     ↔ ∃ a, o = Some a ∧ length a ≠ 2 ∧ length a < 5).
Proof.
  destruct o as [a|].
  - rewrite ltrb_lambda_arity, cmwh_lambda_arity.
    destruct a as [|l [|t [|w [|h [|x rest]]]]]; split; split;
      try (intros _; eexists; split; [done | simpl; lia]);
      try (intros _; eexists; done);
      try (intros [? [=]]);
      try (intros (a' & [= <-] & ? & ?); simpl in *; lia).
  - split; split; try (intros [? [=]]); intros (a & [=] & _).
Qed.

(** X1: [bbox_ltrb] (and [bbox_cmwh]) of a collection returns exactly
    when every row has a box whose array has 0, 1, 3 or 4 components;
    an absent box, and an array of 2 or of 5 and more components, make
    the whole access raise. *)
Theorem box_views_return (self : Detections num) :
  ((∃ s, bbox_ltrb self = Ok s)
   ↔ ∀ d, d ∈ self → ∃ a, bbox d = Some a ∧ length a ≠ 2 ∧ length a < 5)
  ∧ ((∃ s, bbox_cmwh self = Ok s)
     ↔ ∀ d, d ∈ self → ∃ a, bbox d = Some a ∧ length a ≠ 2 ∧ length a < 5).
Proof.
  assert (Hgen : ∀ (f : lambda obj (ndarray num)),
    ((∀ o, (∃ r, call f o [] = Ok r)
           ↔ ∃ a, o = Some a ∧ length a ≠ 2 ∧ length a < 5) →
     (∃ s, Series_apply f [] (map bbox self) = Ok s)
     ↔ ∀ d, d ∈ self → ∃ a, bbox d = Some a ∧ length a ≠ 2 ∧ length a < 5)).
  { intros f Hf. rewrite Series_apply_mapM.
    induction self as [|d self IH]; cbn [map mapM].
    - split; [intros _ d Hd; by apply elem_of_nil in Hd | eauto].
    - split.
      + intros [s Hs]. destruct (call f (bbox d) []) as [y|e] eqn:Ey; [| done].
        cbn [bind] in Hs.
        destruct (mapM (λ x, call f x []) (map bbox self)) as [ys|e] eqn:Eys;
          [| done].
        intros d' [->|Hd']%elem_of_cons.
        * apply Hf. eauto.
        * apply IH; eauto.
      + intros Hall.
        destruct (proj2 (Hf (bbox d))) as [y ->]; [apply Hall; by left |].
        destruct (proj2 IH) as [ys ->]; [intros d' Hd'; apply Hall; by right |].
        cbn [bind]. eauto. }
  split; apply Hgen; intros o; apply view_lambda_returns.
Qed.

(** X2: when [bbox_ltrb] returns, it returns one array per row and row
    [i] of the result is computed from row [i] of the collection alone;
    the view of two collections put one after the other is the two
    views put one after the other. *)
Theorem bbox_ltrb_row_by_row (self other : Detections num) (s : list (ndarray num)) :
  (bbox_ltrb self = Ok s →
   length s = length self
   ∧ ∀ i d, self !! i = Some d →
       ∃ r, s !! i = Some r ∧ bbox_ltrb [d] = Ok [r])
  ∧ (bbox_ltrb (self ++ other) = Ok s
     ↔ ∃ s1 s2, s = s1 ++ s2 ∧ bbox_ltrb self = Ok s1 ∧ bbox_ltrb other = Ok s2).
Proof.
  unfold bbox_ltrb. rewrite !Series_apply_mapM. split.
  - intros Hs%mapM_Forall2. split.
    + apply Forall2_length in Hs. by rewrite length_map in Hs.
    + intros i d Hd.
      destruct (Forall2_lookup_l _ _ _ i (bbox d) Hs) as (r & Hr & Hcall).
      { change (map bbox self) with (bbox <$> self).
        rewrite list_lookup_fmap. unfold Detections in *. by rewrite Hd. }
      exists r. split; [done |].
      rewrite Series_apply_mapM. cbn [map mapM]. by rewrite Hcall.
  - rewrite map_app. apply mapM_app.
Qed.

(** X3: the first row that cannot be converted decides the exception of
    the whole access: a [TypeError] for an absent box, a [ValueError]
    for an array of 2 or of 5 and more components; a single record with
    no box raises the [TypeError] as well. *)
Theorem bbox_ltrb_first_failure (pre post : Detections num) (d : Pbtrack.Detection num)
    (s : list (ndarray num)) :
  bbox_ltrb pre = Ok s →
  (bbox d = None → bbox_ltrb (pre ++ d :: post) = Raise TypeError)
  ∧ (∀ a, bbox d = Some a → length a = 2 ∨ 5 ≤ length a →
          bbox_ltrb (pre ++ d :: post) = Raise ValueError)
  ∧ (bbox d = None → Detection_getattr d "bbox_ltrb" = Raise TypeError).
Proof.
  unfold bbox_ltrb. rewrite !Series_apply_mapM. intros Hpre.
  split; [| split].
  - intros Hd. rewrite map_app. cbn [map].
    apply (mapM_Raise _ _ _ _ s); [done |]. by rewrite Hd.
  - intros a Ha Hlen. rewrite map_app. cbn [map].
    apply (mapM_Raise _ _ _ _ s); [done |].
    rewrite Ha, ltrb_lambda_arity.
    destruct a as [|l [|t [|w [|h [|x rest]]]]]; simpl in Hlen; try lia; done.
  - intros Hd. unfold Detection_getattr, to_frame_T.
    change (hasattr_Detections "bbox_ltrb") with true.
    change (Detections_property "bbox_ltrb")
      with (Some (λ self : Detections num, s ← bbox_ltrb self; Ok (map CArray s))).
    cbv beta iota. unfold bbox_ltrb. cbn [map]. rewrite Hd. reflexivity.
Qed.

End MoreViews.

Lemma bbox_ltrb_row_by_row_witness :
  bbox_ltrb [of_box [10; 20; 30; 40]%float] = Ok [[10; 20; 40; 60]%float]
  ∧ length [[10; 20; 40; 60]%float] = length [of_box [10; 20; 30; 40]%float].
Proof.
  split; [reflexivity |].
  exact (proj1 (proj1 (bbox_ltrb_row_by_row [of_box [10; 20; 30; 40]%float] []
                         [[10; 20; 40; 60]%float]) eq_refl)).
Defined.

Lemma bbox_ltrb_first_failure_witness :
  bbox_ltrb [of_box [10; 20; 30; 40]%float] = Ok [[10; 20; 40; 60]%float]
  ∧ bbox_ltrb ([of_box [10; 20; 30; 40]%float]
               ++ of_box [1; 2]%float :: [])
    = Raise ValueError.
Proof.
  split; [reflexivity |].
  exact (proj1 (proj2 (bbox_ltrb_first_failure [of_box [10; 20; 30; 40]%float] []
                         (of_box [1; 2]%float) [[10; 20; 40; 60]%float] eq_refl))
           [1; 2]%float eq_refl (or_introl eq_refl)).
Defined.

Lemma box_views_return_witness :
  (∀ d, d ∈ [of_box [10; 20; 30]%float] →
        ∃ a, bbox d = Some a ∧ length a ≠ 2 ∧ length a < 5)
  ∧ ∃ s, bbox_ltrb [of_box [10; 20; 30]%float] = Ok s.
Proof.
  assert (Hrows : ∀ d, d ∈ [of_box [10; 20; 30]%float] →
                       ∃ a, bbox d = Some a ∧ length a ≠ 2 ∧ length a < 5).
  { intros d ->%list_elem_of_singleton. eexists. split; [reflexivity |].
    simpl. lia. }
  split; [exact Hrows |].
  exact (proj2 (proj1 (box_views_return [of_box [10; 20; 30]%float])) Hrows).
Defined.

(** ** Report Reducer: when it raises *)

Lemma int_raises (x : float) :
  (∃ e, int x = Raise e) ↔ value_of x = None.
Proof.
  unfold int, value_of. destruct (Prim2SF x); split; try done; eauto;
    by intros [? [=]].
Qed.

(** X4: [format_metric] raises only for a count-like name whose value is
    not a finite number (NaN or an infinity); every other call
    returns. *)
Theorem format_metric_raises (metric_name : string)
    (metric_value scale_factor : float) :
  (∃ e, format_metric metric_name metric_value scale_factor = Raise e)
  ↔ count_like metric_name ∧ value_of metric_value = None.
Proof.
  unfold format_metric.
  destruct (contains "TP" metric_name || contains "FN" metric_name
            || contains "FP" metric_name || contains "TN" metric_name) eqn:Hc.
  - destruct (String.eqb_spec metric_name "MOTP") as [->|Hne].
    + split; [by intros [? [=]] | by intros [[_ ?] _]].
    + assert (Hcl : count_like metric_name).
      { split; [| done]. rewrite <- !contains_Substring, <- !orb_true_iff.
        by rewrite !orb_assoc. }
      rewrite <- int_raises. split.
      * intros [e He]. split; [done |].
        destruct (int metric_value) as [z|e']; [done | eauto].
      * intros [_ [e He]]. rewrite He. eauto.
  - split; [by intros [? [=]] |].
    intros [[Hsub _] _].
    rewrite <- !contains_Substring, <- !orb_true_iff, !orb_assoc in Hsub.
    congruence.
Qed.

Lemma format_metric_raises_witness :
  count_like "CLR_TP" ∧ value_of PrimFloat.nan = None
  ∧ ∃ e, format_metric "CLR_TP" PrimFloat.nan 100%float = Raise e.
Proof.
  assert (H1 : count_like "CLR_TP").
  { split; [| discriminate]. left. apply contains_Substring. reflexivity. }
  split; [exact H1 |]. split; [reflexivity |].
  exact (proj2 (format_metric_raises "CLR_TP" PrimFloat.nan 100%float)
           (conj H1 eq_refl)).
Defined.

(** ** Line format: the merged table *)

(** X5: the table of the line-format encoder has one row for every pair
    of a frame and a detection on it (the detection's image_id is the
    frame's index, whatever the frame's id column held before) with a
    frame number, a track_id and a box, and no other row: a detection on
    no known frame, and a row lacking one of the three, give none. *)
Theorem mot_encoding_rows (bbox_column : Trackeval.Detection → option Box)
    (w : World) (r : MotRow) :
  r ∈ (_mot_encoding bbox_column w).1
  ↔ ∃ i d f t b,
      i ∈ image_metadatas w ∧ d ∈ detections w
      ∧ image_id d = im_index i
      ∧ frame i = Some f ∧ track_id d = Some t ∧ bbox_column d = Some b
      ∧ r = {| r_image := set_id i; r_detection := d;
               r_frame := f; r_track_id := t; r_bbox := b |}.
Proof.
  unfold _mot_encoding, merge, copy, set_image_metadatas. cbn [fst image_metadatas].
  rewrite list_elem_of_omap. split.
  - intros ([i0 d0] & Hin & Hc).
    apply list_elem_of_bind in Hin as (i' & Hin & Hi).
    apply list_elem_of_bind in Hin as (d & Hin & Hd).
    apply list_elem_of_singleton in Hin as [= -> ->].
    apply list_elem_of_In, in_map_iff in Hi as (i & <- & Hi%list_elem_of_In).
    apply list_elem_of_filter in Hd as [Hkey Hd].
    unfold complete in Hc. cbn [fst snd set_id frame] in Hc.
    destruct (frame i) as [f|] eqn:Ef; [| done].
    destruct (track_id d) as [t|] eqn:Et; [| done].
    destruct (bbox_column d) as [b|] eqn:Eb; [| done].
    injection Hc as <-. exists i, d, f, t, b.
    cbn in Hkey. injection Hkey as Hkey. done.
  - intros (i & d & f & t & b & Hi & Hd & Hkey & Ef & Et & Eb & ->).
    exists (set_id i, d). split.
    + apply list_elem_of_bind. exists (set_id i). split.
      * apply list_elem_of_bind. exists d. split; [by left |].
        apply list_elem_of_filter. split; [cbn; by rewrite Hkey | done].
      * apply list_elem_of_In, in_map_iff. exists i.
        split; [done | by apply list_elem_of_In].
    + unfold complete. cbn [fst snd set_id frame]. by rewrite Ef, Et, Eb.
Qed.

(** ** Line format: the files *)

Lemma foldr_min_le (a : Z) (l : list Z) :
  (foldr Z.min a l ≤ a)%Z ∧ ∀ x, x ∈ l → (foldr Z.min a l ≤ x)%Z.
Proof.
  induction l as [|y l [IHa IHl]]; cbn [foldr].
  - split; [lia | intros x Hx; by apply elem_of_nil in Hx].
  - split; [lia |]. intros x [->|Hx]%elem_of_cons; [lia |].
    specialize (IHl x Hx). lia.
Qed.

Lemma frame_min_le (l : list MotRow) (m : Z) (r : MotRow) :
  frame_min l = Some m → r ∈ l → (m ≤ r_frame r)%Z.
Proof.
  unfold frame_min. destruct l as [|r0 l]; [done |]. cbn [map].
  destruct (foldr_min_le (r_frame r0) (map r_frame l)) as [Ha Hl].
  intros [= <-] [->|Hr]%elem_of_cons; [exact Ha |].
  apply Hl, list_elem_of_In, in_map. by apply list_elem_of_In.
Qed.

Lemma foldr_min_elem (a : Z) (l : list Z) :
  foldr Z.min a l = a ∨ foldr Z.min a l ∈ l.
Proof.
  induction l as [|y l IH]; cbn [foldr]; [by left |].
  destruct (Z.min_spec y (foldr Z.min a l)) as [[_ ->]|[_ ->]].
  - right. by left.
  - destruct IH as [IH|IH]; [by left | right; by right].
Qed.

Lemma frame_min_elem (l : list MotRow) (m : Z) :
  frame_min l = Some m → ∃ r, r ∈ l ∧ r_frame r = m.
Proof.
  unfold frame_min. destruct l as [|r0 l]; [done |]. cbn [map].
  intros [= <-].
  destruct (foldr_min_elem (r_frame r0) (map r_frame l)) as [->|Hin].
  - exists r0. split; [by left | done].
  - apply list_elem_of_In, in_map_iff in Hin as (r & Hr & Hin).
    exists r. split; [right; by apply list_elem_of_In | done].
Qed.

Lemma frame_min_None (l : list MotRow) : frame_min l = None → l = [].
Proof. by destruct l. Qed.

Lemma file_df_length (mot_df : list MotRow) (id : Z) :
  length (file_df mot_df id) = length (filter (λ r, r_video_id r = id) mot_df).
Proof. unfold file_df. case_decide; [apply length_map | done]. Qed.

Lemma file_df_one_based (mot_df : list MotRow) (id : Z) :
  (∀ r, r ∈ mot_df → r_video_id r = id → (0 ≤ r_frame r)%Z) →
  Forall (λ r, (1 ≤ r_frame r)%Z) (file_df mot_df id).
Proof.
  intros Hpos. unfold file_df.
  set (rows := filter (λ r, r_video_id r = id) mot_df).
  assert (Hrows : ∀ r, r ∈ rows → (0 ≤ r_frame r)%Z).
  { intros r [Hid Hr]%list_elem_of_filter. by apply Hpos. }
  case_decide as Hmin.
  - apply Forall_forall. intros r' (r & <- & Hr)%list_elem_of_In%in_map_iff.
    apply list_elem_of_In, Hrows in Hr. cbn. lia.
  - apply Forall_forall. intros r Hr.
    destruct (frame_min rows) as [m|] eqn:Em.
    + pose proof (frame_min_le rows m r Em Hr) as Hle.
      assert (m ≠ 0%Z) by congruence.
      destruct (frame_min_elem rows m Em) as (r1 & Hr1 & <-).
      specialize (Hrows r1 Hr1). lia.
    + apply frame_min_None in Em. rewrite Em in Hr. by apply elem_of_nil in Hr.
Qed.

(** X6: the file of a sequence has as many lines as the merged table has
    rows of that sequence; if none of those rows has a negative frame
    number, every line of the file has a frame number of at least 1. *)
Theorem line_format_one_based (save_folder : path)
    (bbox_column : Trackeval.Detection → option Box)
    (save_classes is_ground_truth : bool) (w : World) (video : Video) :
  video ∈ video_metadatas w →
  (∀ v, v ∈ video_metadatas w → name v = name video →
        vid_index v = vid_index video) →
  ∃ rows : list Line,
    files (save_in_mot_challenge_format save_folder bbox_column save_classes
             is_ground_truth w).1
      !! (save_folder ++ [name video +:+ ".txt"]) = Some (Text rows)
    ∧ length rows
      = length (filter (λ r, r_video_id r = vid_index video)
                  (_mot_encoding bbox_column w).1)
    ∧ ((∀ r, r ∈ (_mot_encoding bbox_column w).1 →
             r_video_id r = vid_index video → (0 ≤ r_frame r)%Z) →
       Forall (λ l, (1 ≤ l_frame l)%Z) rows).
Proof.
  intros Hin Huniq. eexists.
  split; [by apply save_in_mot_challenge_format_files |].
  split.
  - by rewrite length_map, merge_sort_Permutation, file_df_length.
  - intros Hpos. apply Forall_forall.
    intros l (r & <- & Hr%list_elem_of_In)%list_elem_of_In%in_map_iff.
    rewrite merge_sort_Permutation in Hr.
    pose proof (file_df_one_based _ _ Hpos) as Hall.
    rewrite Forall_forall in Hall. rewrite to_csv_frame. by apply Hall.
Qed.

Lemma line_format_one_based_witness :
  sample_video 0 "seq"
    ∈ video_metadatas
        (sample_world [sample_detection 0 0 0 (Some 1%Z)] [sample_image 0 0 0]
           [sample_video 0 "seq"])
  ∧ ∃ rows : list Line,
      files (save_in_mot_challenge_format ["out"; "tracklab"] bbox_ltwh false false
               (sample_world [sample_detection 0 0 0 (Some 1%Z)]
                  [sample_image 0 0 0] [sample_video 0 "seq"])).1
        !! (["out"; "tracklab"] ++ [name (sample_video 0 "seq") +:+ ".txt"])
      = Some (Text rows)
      ∧ Forall (λ l, (1 ≤ l_frame l)%Z) rows.
Proof.
  assert (Hin : sample_video 0 "seq" ∈ [sample_video 0 "seq"]) by (by left).
  split; [exact Hin |].
  destruct (line_format_one_based ["out"; "tracklab"] bbox_ltwh false false
              (sample_world [sample_detection 0 0 0 (Some 1%Z)]
                 [sample_image 0 0 0] [sample_video 0 "seq"])
              (sample_video 0 "seq") Hin)
    as (rows & Hfile & _ & Hone).
  { by intros v ->%list_elem_of_singleton. }
  exists rows. split; [exact Hfile |]. apply Hone.
  intros r Hr _. cbn in Hr.
  apply list_elem_of_singleton in Hr as ->. done.
Defined.

(** ** Document format: the files and the archive *)

Lemma zip_path_two (above : path) (parent_name last_name : string) :
  zip_path (above ++ [parent_name; last_name])
  = Ok (above ++ [parent_name +:+ ".zip"]).
Proof.
  unfold zip_path.
  change (above ++ [parent_name; last_name])
    with (above ++ [parent_name] ++ [last_name]).
  rewrite !reverse_app. cbn [reverse rev_append app].
  change (rev_append (reverse above) []) with (reverse (reverse above)).
  by rewrite reverse_involutive.
Qed.

Lemma path_two (p : path) :
  2 ≤ length p → ∃ above parent_name last_name, p = above ++ [parent_name; last_name].
Proof.
  intros Hlen. destruct (reverse p) as [|l [|q r]] eqn:E.
  - apply (f_equal length) in E. rewrite length_reverse in E. simpl in E. lia.
  - apply (f_equal length) in E. rewrite length_reverse in E. simpl in E. lia.
  - exists (reverse r), q, l.
    rewrite <- (reverse_involutive p), E.
    change (l :: q :: r) with ([l] ++ [q] ++ r).
    rewrite !reverse_app. by rewrite <- app_assoc.
Qed.

Lemma zip_path_short (p : path) : length p < 2 → zip_path p = Raise IndexError.
Proof. by destruct p as [|a [|b p]]; [..|simpl; lia]. Qed.

Lemma soccernet_video_files (save_path zf : path) (save_zip : bool)
    (predictions : list Prediction) (w : World) (v : Video) :
  files (soccernet_video save_path zf save_zip predictions w v)
  = match of_video predictions (vid_index v) with
    | [] => files w
    | l => <[save_path ++ [name v +:+ ".json"] := Json (merge_sort id_le l)]> (files w)
    end
  ∧ dirs (soccernet_video save_path zf save_zip predictions w v) = dirs w.
Proof.
  unfold soccernet_video.
  destruct (of_video predictions (vid_index v)) as [|p ps]; [done |].
  destruct save_zip; [| done].
  match goal with |- context [zip_append ?a ?b ?c ?d] =>
    destruct (zip_append_tables a b c d) as (_ & _ & _ & -> & ->) end.
  done.
Qed.


Lemma soccernet_video_archives (save_path zf : path) (save_zip : bool)
    (predictions : list Prediction) (w : World) (v : Video) (z : path) :
  default [] (archives w !! z)
    `prefix_of` default [] (archives (soccernet_video save_path zf save_zip
                                       predictions w v) !! z).
Proof.
  unfold soccernet_video.
  destruct (of_video predictions (vid_index v)) as [|p ps]; [done |].
  destruct save_zip; [| done].
  unfold zip_append. cbn [files write_file]. rewrite lookup_insert_eq.
  cbn [archives]. destruct (decide (zf = z)) as [->|Hz].
  - rewrite lookup_insert_eq. cbn [from_option]. unfold Datatypes.id at 2.
    by apply prefix_app_r.
  - by rewrite lookup_insert_ne.
Qed.

Lemma soccernet_fold_archives (save_path zf : path) (save_zip : bool)
    (predictions : list Prediction) (videos : list Video) (w : World) (z : path) :
  default [] (archives w !! z)
    `prefix_of` default [] (archives (foldl (soccernet_video save_path zf save_zip
                                              predictions) w videos) !! z).
Proof.
  revert w. induction videos as [|v videos IH]; intros w; [done |].
  cbn [foldl]. etrans; [apply soccernet_video_archives | apply IH].
Qed.





(** X8: the document-format encoder needs a save folder of at least two
    components: on a shorter one it raises an [IndexError] (also without
    the archive option) after creating the folder and before writing
    any file; on a folder of two and more components it returns, and its
    archive is <grandparent>/<parent name>.zip. *)
Theorem document_format_folder (save_folder : path) (save_zip : bool) (w : World) :
  (length save_folder < 2 →
   save_in_soccernet_format save_folder false save_zip w
   = (makedirs save_folder w, Raise IndexError))
  ∧ (2 ≤ length save_folder →
     (save_in_soccernet_format save_folder false save_zip w).2 = Ok ()
     ∧ ∃ above parent_name last_name,
         save_folder = above ++ [parent_name; last_name]
         ∧ zip_path save_folder = Ok (above ++ [parent_name +:+ ".zip"])).
Proof.
  unfold save_in_soccernet_format. split.
  - intros Hlen. by rewrite zip_path_short.
  - intros (above & parent_name & last_name & ->)%path_two.
    rewrite zip_path_two. split; [done |]. eauto.
Qed.

Lemma document_format_folder_witness :
  length ["tracklab"] < 2
  ∧ save_in_soccernet_format ["tracklab"] false false
      (sample_world [] [] [sample_video 0 "seq"])
    = (makedirs ["tracklab"] (sample_world [] [] [sample_video 0 "seq"]),
       Raise IndexError)
  ∧ (save_in_soccernet_format ["out"; "tracklab"] false false
       (sample_world [] [] [sample_video 0 "seq"])).2 = Ok ().
Proof.
  assert (H1 : length ["tracklab"] < 2) by (simpl; lia).
  assert (H2 : 2 ≤ length ["out"; "tracklab"]) by (simpl; lia).
  split; [exact H1 |]. split.
  - exact (proj1 (document_format_folder ["tracklab"] false
                    (sample_world [] [] [sample_video 0 "seq"])) H1).
  - exact (proj1 (proj2 (document_format_folder ["out"; "tracklab"] false
                           (sample_world [] [] [sample_video 0 "seq"])) H2)).
Defined.

Lemma mot_fold_frame (save_path : path) (save_classes : bool)
    (mot_df : list MotRow) (videos : list Video) (w : World) :
  archives (foldl (mot_video save_path save_classes mot_df) w videos) = archives w
  ∧ dirs (foldl (mot_video save_path save_classes mot_df) w videos) = dirs w
  ∧ ∀ p, (∀ v, v ∈ videos → p ≠ save_path ++ [name v +:+ ".txt"]) →
         files (foldl (mot_video save_path save_classes mot_df) w videos) !! p
         = files w !! p.
Proof.
  revert w. induction videos as [|v videos IH]; intros w; [done |].
  cbn [foldl]. destruct (IH (mot_video save_path save_classes mot_df w v))
    as (-> & -> & IHf).
  split; [by rewrite mot_video_write |]. split; [by rewrite mot_video_write |].
  intros p Hp. rewrite IHf by (intros v' Hv'; apply Hp; by right).
  rewrite mot_video_write. cbn [files write_file].
  rewrite lookup_insert_ne; [done |].
  intros Heq. by apply (Hp v); [left |].
Qed.

Lemma soccernet_fold_frame (save_path zf : path) (save_zip : bool)
    (predictions : list Prediction) (videos : list Video) (w : World) :
  dirs (foldl (soccernet_video save_path zf save_zip predictions) w videos) = dirs w
  ∧ ∀ p, (∀ v, v ∈ videos → p ≠ save_path ++ [name v +:+ ".json"]) →
         files (foldl (soccernet_video save_path zf save_zip predictions) w videos)
           !! p = files w !! p.
Proof.
  revert w. induction videos as [|v videos IH]; intros w; [done |].
  cbn [foldl].
  destruct (IH (soccernet_video save_path zf save_zip predictions w v)) as (-> & IHf).
  destruct (soccernet_video_files save_path zf save_zip predictions w v) as [Hf ->].
  split; [done |].
  intros p Hp. rewrite IHf by (intros v' Hv'; apply Hp; by right).
  rewrite Hf. destruct (of_video predictions (vid_index v)); [done |].
  rewrite lookup_insert_ne; [done |].
  intros Heq. by apply (Hp v); [left |].
Qed.

Lemma soccernet_fold_no_zip (save_path zf : path)
    (predictions : list Prediction) (videos : list Video) (w : World) :
  archives (foldl (soccernet_video save_path zf false predictions) w videos)
  = archives w.
Proof.
  revert w. induction videos as [|v videos IH]; intros w; [done |].
  cbn [foldl]. rewrite IH. unfold soccernet_video.
  by destruct (of_video predictions (vid_index v)).
Qed.

(** X9: the archives only grow at their end: after a call of the
    document-format encoder the members an archive had are still its
    first members, in the same order; without the archive option, and in
    the line-format encoder, no archive is touched. *)
Theorem archives_append_only :
  (∀ (save_folder : path) (is_ground_truth save_zip : bool) (w : World) (z : path),
     default [] (archives w !! z)
       `prefix_of` default [] (archives (save_in_soccernet_format save_folder
                                          is_ground_truth save_zip w).1 !! z))
  ∧ (∀ (save_folder : path) (is_ground_truth : bool) (w : World),
       archives (save_in_soccernet_format save_folder is_ground_truth false w).1
       = archives w)
  ∧ (∀ (save_folder : path) (bbox_column : Trackeval.Detection → option Box)
       (save_classes is_ground_truth : bool) (w : World),
       archives (save_in_mot_challenge_format save_folder bbox_column save_classes
                   is_ground_truth w).1 = archives w).
Proof.
  split; [| split].
  - intros save_folder [] save_zip w z; [done |].
    unfold save_in_soccernet_format.
    destruct (zip_path save_folder) as [zf|e]; [| done].
    cbn [fst]. apply (soccernet_fold_archives _ _ _ _ _ (makedirs save_folder w)).
  - intros save_folder [] w; [done |].
    unfold save_in_soccernet_format.
    destruct (zip_path save_folder) as [zf|e]; [| done].
    cbn [fst]. by rewrite soccernet_fold_no_zip.
  - intros save_folder bbox_column save_classes is_ground_truth w.
    unfold save_in_mot_challenge_format, _mot_encoding. cbn [fst].
    by rewrite (proj1 (mot_fold_frame _ _ _ _ _)).
Qed.



(** X11: both encoders create the save folder with its ancestors and no
    other directory; the document-format encoder called for ground truth
    creates none. *)
Theorem directories_created (save_folder : path) (w : World) :
  (∀ save_zip,
     dirs (save_in_soccernet_format save_folder false save_zip w).1
     = dirs (makedirs save_folder w)
     ∧ dirs (save_in_soccernet_format save_folder true save_zip w).1 = dirs w)
  ∧ (∀ bbox_column save_classes is_ground_truth,
       dirs (save_in_mot_challenge_format save_folder bbox_column save_classes
               is_ground_truth w).1 = dirs (makedirs save_folder w))
  ∧ (∀ d : path,
       d ∈ dirs (makedirs save_folder w)
       ↔ d ∈ dirs w
         ∨ ∃ n, 1 ≤ n ≤ length save_folder ∧ d = take n save_folder)
  ∧ makedirs save_folder (makedirs save_folder w) = makedirs save_folder w.
Proof.
  split; [| split; [| split]].
  - intros save_zip. split; [| done]. unfold save_in_soccernet_format.
    destruct (zip_path save_folder) as [zf|e]; [| done].
    cbn [fst].
    by rewrite (proj1 (soccernet_fold_frame _ _ _ _ _ (makedirs save_folder w))).
  - intros bbox_column save_classes is_ground_truth.
    unfold save_in_mot_challenge_format, _mot_encoding. cbn [fst].
    by rewrite (proj1 (proj2 (mot_fold_frame _ _ _ _ _))).
  - intros d. unfold makedirs. cbn [dirs].
    rewrite elem_of_union, elem_of_list_to_set. split.
    + intros [Hd|Hd]; [by left | right].
      apply list_elem_of_In, in_map_iff in Hd as (n & <- & Hn).
      apply in_seq in Hn. exists n. split; [lia | done].
    + intros [Hd|(n & Hn & ->)]; [by left | right].
      apply list_elem_of_In, in_map_iff. exists n. split; [done |].
      apply in_seq. lia.
  - unfold makedirs. cbn [dirs detections image_metadatas video_metadatas files archives].
    f_equal. by rewrite <- (assoc_L (∪)), (idemp_L (∪)).
Qed.

(** ** Document format: the entries *)


Lemma pretty_Z_eq (a b : Z) : pretty a = pretty b ↔ a = b.
Proof. split; [apply (inj pretty) | by intros ->]. Qed.




Lemma object_rows_of_video (id : Z) (ds : list Trackeval.Detection) :
  length (filter (λ p, p_video_id p = pretty id) (soccernet_encoding_object ds))
  = length (filter (λ d, has_mandatory d ∧ video_id d = id) ds).
Proof.
  unfold soccernet_encoding_object, dropna_object.
  induction ds as [|d ds IH]; [done |].
  rewrite (filter_cons (λ d, has_mandatory d ∧ video_id d = id)).
  cbn [omap list_omap].
  destruct (mandatory d) as [m|] eqn:E.
  - cbn [map]. rewrite filter_cons. cbn [p_video_id object_row].
    rewrite (mandatory_row d m E).
    assert (Hm : has_mandatory d) by (apply mandatory_is_Some; by rewrite E).
    destruct (decide (video_id d = id)) as [Hid|Hid].
    + rewrite decide_True by (by rewrite Hid).
      rewrite decide_True by done. cbn [length]. by rewrite IH.
    + rewrite decide_False by (by rewrite pretty_Z_eq).
      rewrite decide_False by (by intros [_ ?]). done.
  - rewrite decide_False; [done |].
    intros [Hm _]. apply mandatory_is_Some in Hm. rewrite E in Hm.
    by destruct Hm.
Qed.

Lemma frame_rows_of_video (row : Image → Prediction) (id : Z) (images : list Image) :
  (∀ i, p_video_id (row i) = pretty (im_video_id i)) →
  length (filter (λ p, p_video_id p = pretty id) (map row images))
  = length (filter (λ i, im_video_id i = id) images).
Proof.
  intros Hrow. induction images as [|i images IH]; [done |].
  cbn [map]. rewrite !filter_cons, Hrow.
  destruct (decide (im_video_id i = id)) as [Hid|Hid].
  - rewrite decide_True by (by rewrite Hid). cbn [length]. by rewrite IH.
  - rewrite decide_False by (by rewrite pretty_Z_eq). done.
Qed.

(** X13: the number of predictions of a sequence is the number of its
    detections that have a track_id and both boxes, plus two for each of
    its frames. *)
Theorem document_format_count (w : World) (id : Z) :
  length (of_video (concat_encodings w) id)
  = length (filter (λ d, has_mandatory d ∧ video_id d = id) (detections w))
    + 2 * length (filter (λ i, im_video_id i = id) (image_metadatas w)).
Proof.
  unfold of_video, concat_encodings, copy.
  rewrite !filter_app, !length_app, object_rows_of_video.
  unfold soccernet_encoding_camera, soccernet_encoding_pitch.
  rewrite !frame_rows_of_video by done. lia.
Qed.

(** ** The report tables *)

Import Evaluator.

Lemma for_each_Forall2 {A B} (f : A → attempt B) (l : list A) (s : list B) :
  for_each f l = Done s ↔ Forall2 (λ x y, f x = Done y) l s.
Proof.
  revert s. induction l as [|x l IH]; intros s; cbn [for_each].
  - split; [intros [= <-]; constructor | by intros ->%Forall2_nil_inv_l].
  - destruct (f x) as [y|e] eqn:Ey; cbn.
    + destruct (for_each f l) as [ys|e] eqn:Eys; cbn.
      * split.
        -- intros [= <-]. constructor; [done | by apply IH].
        -- intros (y' & s' & Hy & Hs & ->)%Forall2_cons_inv_l.
           apply IH in Hs. congruence.
      * split; [done |].
        intros (y' & s' & Hy & Hs & ->)%Forall2_cons_inv_l.
        apply IH in Hs. done.
    + split; [done |].
      intros (y' & s' & Hy & Hs & ->)%Forall2_cons_inv_l. congruence.
Qed.

Lemma for_each_Failed {A B} (f : A → attempt B) (l : list A) (e : failure) :
  for_each f l = Failed e → ∃ x, x ∈ l ∧ f x = Failed e.
Proof.
  induction l as [|x l IH]; cbn [for_each]; [done |].
  destruct (f x) as [y|e'] eqn:Ey; cbn.
  - destruct (for_each f l) as [ys|e'] eqn:Eys; cbn; [done |].
    intros [= ->]. destruct IH as (x' & Hx' & Hf); [done |].
    exists x'. split; [by right | done].
  - intros [= ->]. exists x. split; [by left | done].
Qed.

Lemma getitem_Failed {V} (d : dict V) (key : string) (e : failure) :
  getitem d key = Failed e → e = KeyError key ∧ key ∉ keys d.
Proof.
  induction d as [|[k v] d IH]; cbn [getitem keys map fst].
  - intros [= <-]. split; [done | apply not_elem_of_nil].
  - case_decide as Hk; [done |]. intros [He Hn]%IH.
    split; [done |]. by apply not_elem_of_cons.
Qed.

Lemma getitem_own {V} (d : dict V) (k : string) (v : V) :
  NoDup (keys d) → (k, v) ∈ d → getitem d k = Done v.
Proof.
  induction d as [|[k' v'] d IH]; cbn [getitem keys map fst].
  - intros _ Hin. by apply elem_of_nil in Hin.
  - intros [Hk' Hnd]%NoDup_cons [[= -> ->]|Hin]%elem_of_cons.
    + by rewrite decide_True.
    + rewrite decide_False; [by apply IH |].
      intros ->. apply Hk'. apply list_elem_of_In, in_map_iff.
      exists (k, v). split; [done | by apply list_elem_of_In].
Qed.

Lemma format_row_length (headers : list string) (res : dict float)
    (scale_factor : float) (cells : list rendered) :
  format_row headers res scale_factor = Done cells → length cells = length headers.
Proof. intros Hc%for_each_Forall2. symmetry. by apply Forall2_length in Hc. Qed.

Lemma format_row_KeyError (headers : list string) (res : dict float)
    (scale_factor : float) (key : string) :
  format_row headers res scale_factor = Failed (KeyError key) →
  key ∈ headers ∧ key ∉ keys res.
Proof.
  intros (name & Hname & Hf)%for_each_Failed.
  destruct (getitem res name) as [v|e] eqn:Eg; cbn in Hf.
  - by destruct (format_metric name v scale_factor).
  - injection Hf as ->. apply getitem_Failed in Eg as [[= ->] Hn]. done.
Qed.

(** X14: every table that [_print_results] logs is rectangular (each
    row has one cell per header); the first is the aggregate table, with
    the metric names as headers and one row; the second, if there is
    one, has a leading "video" header and one row per sequence. *)
Theorem print_results_tables (res_combined : dict float)
    (res_by_video : option (dict (dict float))) (scale_factor : float)
    (title : string) (print_by_video : bool) :
  Forall (λ t, Forall (λ row, length row = length (headers t)) (data t))
    (_print_results res_combined res_by_video scale_factor title print_by_video).1
  ∧ match (_print_results res_combined res_by_video scale_factor title
             print_by_video).1 with
    | [] => True
    | [aggregate] =>
        headers aggregate = keys res_combined ∧ length (data aggregate) = 1
    | [aggregate; by_video] =>
        headers aggregate = keys res_combined ∧ length (data aggregate) = 1
        ∧ headers by_video = "video" :: keys res_combined
        ∧ print_by_video = true
        ∧ ∃ videos, res_by_video = Some videos ∧ videos ≠ []
                    ∧ length (data by_video) = length videos
    | _ => False
    end.
Proof.
  unfold _print_results.
  destruct (format_row (keys res_combined) res_combined scale_factor)
    as [cells|e] eqn:Ec; cbn [fst]; [| by split].
  apply format_row_length in Ec.
  assert (Hfirst : Forall (λ row : list entry, length row = length (keys res_combined))
                     [map Value cells]).
  { repeat constructor. by rewrite length_map. }
  assert (Hone : Forall (λ t, Forall (λ row, length row = length (headers t)) (data t))
                   [{| title := title; headers := keys res_combined;
                       data := [map Value cells] |}]).
  { constructor; [exact Hfirst | constructor]. }
  destruct print_by_video; [| by split].
  destruct res_by_video as [[|[video res] videos]|]; [by split | | by split].
  match goal with |- context [for_each ?f ?l] =>
    destruct (for_each f l) as [rows|e] eqn:Er end;
    cbn [fst]; [| by split].
  apply for_each_Forall2 in Er.
  split.
  - constructor; [done |]. constructor; [| constructor].
    cbn [data headers]. apply Forall_forall. intros row Hrow.
    apply list_elem_of_lookup in Hrow as [n Hrow].
    destruct (Forall2_lookup_r _ _ _ _ _ Er Hrow) as ([video' res'] & _ & Hcall).
    destruct (format_row (keys res_combined) res' scale_factor) as [c|e] eqn:Ec';
      [| done].
    cbn in Hcall. injection Hcall as <-.
    apply format_row_length in Ec'. cbn [length]. by rewrite length_map, Ec'.
  - cbn [app headers data length]. repeat split.
    eexists. split; [done |]. split; [done |].
    symmetry. by apply Forall2_length in Er.
Qed.

(** X15: no metric name of the aggregate mapping can be missing from it,
    so a [KeyError] out of [_print_results] comes from the per-sequence
    table: the key is a metric of the aggregate that one of the
    sequences lacks, and the aggregate table has been logged by then. *)
Theorem print_results_KeyError (res_combined : dict float)
    (res_by_video : option (dict (dict float))) (scale_factor : float)
    (title : string) (print_by_video : bool) (key : string) :
  (_print_results res_combined res_by_video scale_factor title print_by_video).2
  = Some (KeyError key) →
  print_by_video = true
  ∧ key ∈ keys res_combined
  ∧ (∃ videos video res,
       res_by_video = Some videos ∧ (video, res) ∈ videos ∧ key ∉ keys res)
  ∧ length (_print_results res_combined res_by_video scale_factor title
              print_by_video).1 = 1.
Proof.
  unfold _print_results.
  destruct (format_row (keys res_combined) res_combined scale_factor)
    as [cells|e] eqn:Ec; cbn [fst snd].
  - destruct print_by_video; [| done].
    destruct res_by_video as [[|[video res] videos]|]; [done | | done].
    match goal with |- context [for_each ?f ?l] =>
      destruct (for_each f l) as [rows|e] eqn:Er end; cbn [fst snd]; [done |].
    intros [= ->].
    apply for_each_Failed in Er as ([video' res'] & Hin & Hcall).
    destruct (format_row (keys res_combined) res' scale_factor) as [c|e] eqn:Ec';
      [done |].
    cbn in Hcall. injection Hcall as ->.
    apply format_row_KeyError in Ec' as [Hk Hn].
    split; [done |]. split; [done |]. split; [| done].
    exists ((video, res) :: videos), video', res'. done.
  - intros [= ->]. exfalso.
    apply format_row_KeyError in Ec as [Hk Hn]. done.
Qed.

Lemma own_cells (res d : dict float) (scale_factor : float) (cells : list rendered) :
  (∀ kv, kv ∈ d → getitem res kv.1 = Done kv.2) →
  Forall2 (λ kv c, (v ← getitem res kv.1; lift (format_metric kv.1 v scale_factor))
                   = Done c) d cells
  ↔ Forall2 (λ kv c, format_metric kv.1 kv.2 scale_factor = Ok c) d cells.
Proof.
  intros Hown. split; intros Hall.
  - revert cells Hall. induction d as [|kv d IH]; intros cells Hall.
    + apply Forall2_nil_inv_l in Hall as ->. constructor.
    + apply Forall2_cons_inv_l in Hall as (c & cells' & Hc & Hall & ->).
      constructor.
      * rewrite Hown in Hc by (by left). cbn in Hc.
        by destruct (format_metric kv.1 kv.2 scale_factor) as [r|e];
          [injection Hc as -> |].
      * apply IH; [| done]. intros kv' Hkv'. apply Hown. by right.
  - revert cells Hall. induction d as [|kv d IH]; intros cells Hall.
    + apply Forall2_nil_inv_l in Hall as ->. constructor.
    + apply Forall2_cons_inv_l in Hall as (c & cells' & Hc & Hall & ->).
      constructor.
      * rewrite Hown by (by left). cbn. by rewrite Hc.
      * apply IH; [| done]. intros kv' Hkv'. apply Hown. by right.
Qed.

(** X16: with distinct metric names, the cells of the aggregate row are,
    in the order of the mapping, the renderings of each metric's own
    value; the row is made exactly when every one of them can be
    rendered. *)
Theorem aggregate_row_cells (res_combined : dict float) (scale_factor : float)
    (cells : list rendered) :
  NoDup (keys res_combined) →
  format_row (keys res_combined) res_combined scale_factor = Done cells
  ↔ Forall2 (λ kv c, format_metric kv.1 kv.2 scale_factor = Ok c) res_combined cells.
Proof.
  intros Hnd. unfold format_row. rewrite for_each_Forall2. unfold keys.
  change (map fst res_combined) with (fst <$> res_combined).
  rewrite Forall2_fmap_l. apply own_cells.
  intros [k v] Hkv. by apply getitem_own.
Qed.

Lemma aggregate_row_cells_witness :
  NoDup (keys [("HOTA", 0.5%float); ("CLR_TP", 120%float)])
  ∧ format_row (keys [("HOTA", 0.5%float); ("CLR_TP", 120%float)])
      [("HOTA", 0.5%float); ("CLR_TP", 120%float)] 100%float
    = Done [RFloat 50%float; RInt 120].
Proof.
  assert (Hnd : NoDup (keys [("HOTA", 0.5%float); ("CLR_TP", 120%float)])).
  { cbn. apply NoDup_cons. split; [| apply NoDup_singleton].
    intros [=]%list_elem_of_singleton. }
  split; [exact Hnd |].
  apply (proj2 (aggregate_row_cells _ 100%float _ Hnd)).
  repeat constructor.
Defined.

Lemma print_results_KeyError_witness :
  (_print_results [("HOTA", 0.5%float)] (Some [("seq", [])]) 100%float "t" true).2
  = Some (KeyError "HOTA")
  ∧ length (_print_results [("HOTA", 0.5%float)] (Some [("seq", [])]) 100%float
              "t" true).1 = 1.
Proof.
  split; [reflexivity |].
  exact (proj2 (proj2 (proj2 (print_results_KeyError [("HOTA", 0.5%float)]
                                (Some [("seq", [])]) 100%float "t" true "HOTA"
                                eq_refl)))).
Defined.

(** ** The evaluator *)

Lemma foldl_insert_notin {A V} (key : A → string) (val : A → V)
    (l : list A) (m : gmap string V) (k : string) :
  k ∉ map key l → foldl (λ m x, <[key x := val x]> m) m l !! k = m !! k.
Proof.
  revert m. induction l as [|x l IH]; intros m Hk; [done |].
  cbn [foldl]. cbn [map] in Hk. apply not_elem_of_cons in Hk as [Hx Hl].
  rewrite IH by done. by rewrite lookup_insert_ne.
Qed.

(** The last assignment of a key is the one that stays. *)
Lemma foldl_insert_last {A V} (key : A → string) (val : A → V)
    (pre post : list A) (x : A) (m : gmap string V) :
  key x ∉ map key post →
  foldl (λ m x, <[key x := val x]> m) m (pre ++ x :: post) !! key x
  = Some (val x).
Proof.
  intros Hpost. rewrite foldl_app. cbn [foldl].
  rewrite foldl_insert_notin by done. apply lookup_insert_eq.
Qed.

Lemma foldl_insert_in {A V} (key : A → string) (val : A → V)
    (l : list A) (x : A) (m : gmap string V) :
  NoDup (map key l) → x ∈ l →
  foldl (λ m x, <[key x := val x]> m) m l !! key x = Some (val x).
Proof.
  intros Hnd (pre & post & ->)%list_elem_of_split.
  apply foldl_insert_last.
  rewrite map_app in Hnd. apply NoDup_app in Hnd as (_ & _ & Hnd).
  cbn [map] in Hnd. by apply NoDup_cons in Hnd as [Hx _].
Qed.

(** X17: the per-sequence frame-count map of the dataset description
    gives, for a sequence name, the frame count of the last sequence of
    that name in the sequence metadata, and nothing for any other
    name. *)
Theorem seq_info_lookup (videos : list Video) :
  (∀ pre post v, videos = pre ++ v :: post → name v ∉ map name post →
                 seq_info videos !! name v = Some (nframes v))
  ∧ (∀ n, n ∉ map name videos → seq_info videos !! n = None).
Proof.
  unfold seq_info. split.
  - intros pre post v -> Hpost. by apply foldl_insert_last.
  - intros n Hn. by rewrite foldl_insert_notin.
Qed.

Lemma seq_info_lookup_witness :
  [sample_video 0 "a"; sample_video 1 "b"]
  = [sample_video 0 "a"] ++ (sample_video 1 "b" :: [])
  ∧ (name (sample_video 1 "b") ∉ map name [])
  ∧ seq_info [sample_video 0 "a"; sample_video 1 "b"] !! name (sample_video 1 "b")
    = Some (nframes (sample_video 1 "b")).
Proof.
  split; [reflexivity |].
  assert (Hpost : name (sample_video 1 "b") ∉ map name []) by apply not_elem_of_nil.
  split; [exact Hpost |].
  exact (proj1 (seq_info_lookup [sample_video 0 "a"; sample_video 1 "b"])
           [sample_video 0 "a"] [] (sample_video 1 "b") eq_refl Hpost).
Defined.

Lemma update_lookup_notin (config : gmap string cfgval)
    (items : list (string * cfgval)) (k : string) :
  k ∉ map fst items → update config items !! k = config !! k.
Proof. apply (foldl_insert_notin fst snd). Qed.

Lemma update_lookup_in (config : gmap string cfgval)
    (items : list (string * cfgval)) (k : string) (v : cfgval) :
  NoDup (map fst items) → (k, v) ∈ items → update config items !! k = Some v.
Proof. intros Hnd Hin. apply (foldl_insert_in fst snd items (k, v)); done. Qed.

(** X18: in the dataset description every item of [cfg.dataset] has the
    last word over the class defaults, the frame counts and the
    benchmark name; without [save_gt], the ground-truth folder and the
    file template are then fixed by the evaluator, whatever
    [cfg.dataset] says; a key that nobody sets keeps its default. *)
Theorem dataset_config_precedence (self : Self) (defaults : gmap string cfgval)
    (videos : list Video) :
  NoDup (map fst (dataset_items (cfg self))) →
  (∀ k v, (k, v) ∈ dataset_items (cfg self) →
          save_gt (cfg self) = true ∨ (k ≠ "GT_FOLDER" ∧ k ≠ "GT_LOC_FORMAT") →
          dataset_config self defaults videos !! k = Some v)
  ∧ (save_gt (cfg self) = false →
     dataset_config self defaults videos !! "GT_FOLDER"
     = Some (VPath (dataset_path self))
     ∧ dataset_config self defaults videos !! "GT_LOC_FORMAT"
       = Some (VStr "{gt_folder}/{seq}/Labels-GameState.json"))
  ∧ ("SEQ_INFO" ∉ map fst (dataset_items (cfg self)) →
     dataset_config self defaults videos !! "SEQ_INFO"
     = Some (VSeqInfo (seq_info videos)))
  ∧ ("BENCHMARK" ∉ map fst (dataset_items (cfg self)) →
     dataset_config self defaults videos !! "BENCHMARK"
     = Some (VStr (class_name self)))
  ∧ (∀ k, k ∉ map fst (dataset_items (cfg self)) →
          k ≠ "SEQ_INFO" → k ≠ "BENCHMARK" → k ≠ "GT_LOC_FORMAT" →
          dataset_config self defaults videos !! k = defaults !! k).
Proof.
  intros Hnd. unfold dataset_config.
  split; [| split; [| split; [| split]]].
  - intros k v Hin Hk. destruct (save_gt (cfg self)).
    + by apply update_lookup_in.
    + destruct Hk as [[=]|[Hk1 Hk2]].
      rewrite !lookup_insert_ne by done. by apply update_lookup_in.
  - intros ->. split; [| by rewrite lookup_insert_eq].
    rewrite lookup_insert_ne by done. by rewrite lookup_insert_eq.
  - intros Hk.
    assert (Hgt : "SEQ_INFO" ≠ "GT_FOLDER") by done.
    destruct (save_gt (cfg self));
      rewrite ?lookup_insert_ne by done;
      rewrite update_lookup_notin by done;
      rewrite lookup_insert_ne by done; by rewrite lookup_insert_eq.
  - intros Hk.
    destruct (save_gt (cfg self));
      rewrite ?lookup_insert_ne by done;
      rewrite update_lookup_notin by done; by rewrite lookup_insert_eq.
  - intros k Hk H1 H2 H3.
    assert (Hgt : k ≠ "GT_FOLDER").
    { intros ->. apply Hk. cbn. right. by left. }
    destruct (save_gt (cfg self));
      rewrite ?lookup_insert_ne by done;
      rewrite update_lookup_notin by done;
      by rewrite !lookup_insert_ne by done.
Qed.

Section EngineFacts.
Context {Metric Summaries : Type}.
Variable catalog : string → option (gmap string cfgval → Metric).
Variable get_default_dataset_config : gmap string cfgval.
Variable get_default_eval_config : gmap string cfgval.
Variable evaluate :
  gmap string cfgval → gmap string cfgval → list Metric → bool →
  World → World * attempt Summaries.

Lemma metrics_loop (config : gmap string cfgval) (names : list string)
    (acc : list Metric) :
  foldl (λ acc metric_name,
           match catalog metric_name with
           | Some metric => acc ++ [metric config]
           | None => acc
           end) acc names
  = acc ++ omap (λ n, (λ metric, metric config) <$> catalog n) names.
Proof.
  revert acc. induction names as [|n names IH]; intros acc; cbn [foldl omap list_omap].
  - by rewrite app_nil_r.
  - rewrite IH. destruct (catalog n); cbn; [by rewrite <- app_assoc | done].
Qed.

(** X19: the metrics handed to the engine are the configured names that
    the engine knows, in the configured order, each built from the same
    metrics configuration; an unknown name is left out and nothing else
    changes. *)
Theorem metrics_list_known (self : Self) :
  metrics_list catalog self
  = omap (λ n, (λ metric, metric (metrics_config self)) <$> catalog n)
      (metrics (cfg self))
  ∧ length (metrics_list catalog self)
    = length (filter (λ n, is_Some (catalog n)) (metrics (cfg self)))
  ∧ ((∀ n, n ∈ metrics (cfg self) → is_Some (catalog n)) →
     length (metrics_list catalog self) = length (metrics (cfg self))).
Proof.
  assert (Heq : metrics_list catalog self
                = omap (λ n, (λ metric, metric (metrics_config self)) <$> catalog n)
                    (metrics (cfg self))).
  { unfold metrics_list. by rewrite metrics_loop. }
  assert (Hlen : ∀ names,
            length (omap (λ n, (λ metric, metric (metrics_config self)) <$> catalog n)
                      names)
            = length (filter (λ n, is_Some (catalog n)) names)).
  { induction names as [|n names IH]; [done |].
    rewrite filter_cons. cbn [omap list_omap].
    destruct (catalog n) as [m|]; cbn.
    - rewrite decide_True by eauto. cbn. by rewrite IH.
    - rewrite decide_False by (by intros [? ?]). done. }
  split; [done |]. rewrite Heq, Hlen. split; [done |].
  assert (Hall : ∀ names : list string,
                   (∀ n, n ∈ names → is_Some (catalog n)) →
                   filter (λ n, is_Some (catalog n)) names = names).
  { induction names as [|n names IH]; intros Hall; [done |].
    rewrite filter_cons, decide_True by (apply Hall; by left).
    f_equal. apply IH. intros n' Hn'. apply Hall. by right. }
  intros Hknown. by rewrite Hall.
Qed.

(** X20: [run] on a format name that [save_functions] does not have
    raises a [KeyError] before anything is written; with no ground-truth
    detections (none, or an empty table) it writes the predictions and
    stops: the state it leaves is the one the encoder left, the report
    is the early exit, and the engine plays no part. *)
Theorem run_early_exits (self : Self) (w : World) :
  (save_functions (trackeval_dataset_name self) = None →
   ∀ detections_gt,
     run catalog get_default_dataset_config get_default_eval_config evaluate
       self detections_gt w
     = (w, Failed (KeyError (trackeval_dataset_name self))))
  ∧ (∀ save detections_gt,
       save_functions (trackeval_dataset_name self) = Some save →
       detections_gt = None ∨ detections_gt = Some [] →
       (run catalog get_default_dataset_config get_default_eval_config evaluate
          self detections_gt w).1
       = (save (TRACKERS_FOLDER (cfg self)
                ++ [class_name self +:+ "-" +:+ eval_set self; "tracklab"])
            (bbox_column_for_eval (cfg self))
            (negb (String.eqb (class_name self) "MotChallenge2DBox")) false w).1
       ∧ (∀ combined_results,
            (run catalog get_default_dataset_config get_default_eval_config
               evaluate self detections_gt w).2
            ≠ Done (Logged combined_results))
       ∧ ((save (TRACKERS_FOLDER (cfg self)
                 ++ [class_name self +:+ "-" +:+ eval_set self; "tracklab"])
             (bbox_column_for_eval (cfg self))
             (negb (String.eqb (class_name self) "MotChallenge2DBox")) false w).2
          = Ok () →
          (run catalog get_default_dataset_config get_default_eval_config
             evaluate self detections_gt w).2 = Done NoGroundTruth)).
Proof.
  split.
  - intros Hnone gt. unfold run. by rewrite Hnone.
  - intros save gt Hsave Hgt. unfold run. rewrite Hsave.
    destruct (save _ _ _ false w) as [w1 [[]|e]];
      destruct Hgt as [-> | ->]; cbn [fst snd]; repeat split; done.
Qed.

(** X21: for the document format [run] always gets past the saving of
    the predictions: its save folder <TRACKERS_FOLDER>/<class>-<split>/
    tracklab has the two components the archive path needs, the archive
    is <TRACKERS_FOLDER>/<class>-<split>.zip, and with ground truth the
    engine is called on the state left by the saving of the predictions,
    with or without [save_gt]. *)
Theorem run_document_format (self : Self) (w : World)
    (gt : Trackeval.Detection) (gts : list Trackeval.Detection) :
  trackeval_dataset_name self = "SoccerNetGS" →
  zip_path (TRACKERS_FOLDER (cfg self)
            ++ [class_name self +:+ "-" +:+ eval_set self; "tracklab"])
  = Ok (TRACKERS_FOLDER (cfg self)
        ++ [(class_name self +:+ "-" +:+ eval_set self) +:+ ".zip"])
  ∧ (save_in_soccernet_format
       (TRACKERS_FOLDER (cfg self)
        ++ [class_name self +:+ "-" +:+ eval_set self; "tracklab"])
       false true w).2 = Ok ()
  ∧ run catalog get_default_dataset_config get_default_eval_config evaluate
      self (Some (gt :: gts)) w
    = match evaluate
              (dataset_config self get_default_dataset_config (video_metadatas w))
              (update get_default_eval_config (eval_items (cfg self)))
              (metrics_list catalog self) (show_progressbar self)
              (save_in_soccernet_format
                 (TRACKERS_FOLDER (cfg self)
                  ++ [class_name self +:+ "-" +:+ eval_set self; "tracklab"])
                 false true w).1 with
      | (w', Failed f) => (w', Failed f)
      | (w', Done combined_results) => (w', Done (Logged combined_results))
      end.
Proof.
  intros Hname.
  pose proof (zip_path_two (TRACKERS_FOLDER (cfg self))
                (class_name self +:+ "-" +:+ eval_set self) "tracklab") as Hzip.
  split; [exact Hzip |].
  assert (Hok : (save_in_soccernet_format
                   (TRACKERS_FOLDER (cfg self)
                    ++ [class_name self +:+ "-" +:+ eval_set self; "tracklab"])
                   false true w).2 = Ok ()).
  { unfold save_in_soccernet_format. by rewrite Hzip. }
  split; [exact Hok |].
  unfold run. rewrite Hname. cbn [save_functions decide].
  change (save_functions "SoccerNetGS")
    with (Some (λ (save_folder : path) (_ : Trackeval.Detection → option Box)
                  (_ is_ground_truth : bool),
                  save_in_soccernet_format save_folder is_ground_truth true)).
  cbv beta iota.
  pose proof (save_in_soccernet_format_tables
                (TRACKERS_FOLDER (cfg self)
                 ++ [class_name self +:+ "-" +:+ eval_set self; "tracklab"])
                false true w) as (_ & _ & Hvid).
  destruct (save_in_soccernet_format _ false true w) as [w1 r] eqn:Esave.
  cbn [fst snd] in *. subst r.
  assert (Hgt : (if save_gt (cfg self)
                 then on_detections (gt :: gts)
                        (save_in_soccernet_format
                           (GT_FOLDER (cfg self)
                            ++ [trackeval_dataset_name self +:+ "-" +:+ eval_set self])
                           true true) w1
                 else (w1, Ok ())) = (w1, Ok ())).
  { destruct (save_gt (cfg self)); [| done]. by destruct w1. }
  rewrite Hname in Hgt. rewrite Hgt. by rewrite Hvid.
Qed.

End EngineFacts.

Lemma dataset_config_precedence_witness :
  NoDup (map fst (dataset_items (cfg (sample_self "SoccerNetGS" false))))
  ∧ dataset_config (sample_self "SoccerNetGS" false) ∅ [] !! "TRACKERS_FOLDER"
    = Some (VPath ["out"])
  ∧ dataset_config (sample_self "SoccerNetGS" false) ∅ [] !! "GT_FOLDER"
    = Some (VPath ["data"]).
Proof.
  assert (Hnd : NoDup (map fst (dataset_items (cfg (sample_self "SoccerNetGS" false))))).
  { cbn. apply NoDup_cons. split; [| apply NoDup_singleton].
    intros [=]%list_elem_of_singleton. }
  destruct (dataset_config_precedence (sample_self "SoccerNetGS" false) ∅ [] Hnd)
    as (Hitem & Hgt & _).
  split; [exact Hnd |]. split.
  - apply Hitem; [by left | right; by split].
  - by apply Hgt.
Defined.

Lemma metrics_list_known_witness :
  (∀ n, n ∈ metrics (cfg (sample_self "SoccerNetGS" false)) →
        is_Some (sample_catalog n) ∨ n = "Unknown")
  ∧ metrics_list sample_catalog (sample_self "SoccerNetGS" false) = ["HOTA"].
Proof.
  split.
  - intros n [->|[->|Hn]%elem_of_cons]%elem_of_cons.
    + left. by eexists.
    + by right.
    + by apply elem_of_nil in Hn.
  - rewrite (proj1 (metrics_list_known sample_catalog
                      (sample_self "SoccerNetGS" false))).
    reflexivity.
Defined.

Lemma run_early_exits_witness :
  save_functions (trackeval_dataset_name (sample_self "Kitti2DBox" false)) = None
  ∧ run sample_catalog ∅ ∅ sample_evaluate (sample_self "Kitti2DBox" false) None
      (sample_world [] [] [sample_video 0 "seq"])
    = (sample_world [] [] [sample_video 0 "seq"], Failed (KeyError "Kitti2DBox"))
  ∧ (run sample_catalog ∅ ∅ sample_evaluate (sample_self "SoccerNetGS" false)
       (Some []) (sample_world [] [] [sample_video 0 "seq"])).2
    = Done NoGroundTruth.
Proof.
  destruct (run_early_exits sample_catalog ∅ ∅ sample_evaluate
              (sample_self "Kitti2DBox" false)
              (sample_world [] [] [sample_video 0 "seq"])) as [Hkey _].
  destruct (run_early_exits sample_catalog ∅ ∅ sample_evaluate
              (sample_self "SoccerNetGS" false)
              (sample_world [] [] [sample_video 0 "seq"])) as [_ Hstop].
  split; [reflexivity |]. split; [exact (Hkey eq_refl None) |].
  apply (Hstop _ (Some []) eq_refl (or_intror eq_refl)). reflexivity.
Defined.

Lemma run_document_format_witness :
  trackeval_dataset_name (sample_self "SoccerNetGS" true) = "SoccerNetGS"
  ∧ zip_path (TRACKERS_FOLDER (cfg (sample_self "SoccerNetGS" true))
              ++ [class_name (sample_self "SoccerNetGS" true) +:+ "-"
                  +:+ eval_set (sample_self "SoccerNetGS" true); "tracklab"])
    = Ok ["out"; "SoccerNetGS-valid.zip"].
Proof.
  split; [reflexivity |].
  exact (proj1 (run_document_format sample_catalog ∅ ∅ sample_evaluate
                  (sample_self "SoccerNetGS" true)
                  (sample_world [] [] []) (sample_detection 0 0 0 None) []
                  eq_refl)).
Defined.

(** ** Line format: no detection lost or doubled *)

Lemma filter_disjoint_or {A} (P Q R : A → Prop)
    `{∀ x, Decision (P x)} `{∀ x, Decision (Q x)} `{∀ x, Decision (R x)}
    (l : list A) :
  (∀ x, P x → Q x → False) → (∀ x, R x ↔ P x ∨ Q x) →
  filter R l ≡ₚ filter P l ++ filter Q l.
Proof.
  intros Hdis Hor. induction l as [|x l IH]; [done |].
  rewrite !filter_cons.
  destruct (decide (P x)) as [HP|HP], (decide (Q x)) as [HQ|HQ].
  - by destruct (Hdis x).
  - rewrite decide_True by (apply Hor; by left). cbn. by rewrite IH.
  - rewrite decide_True by (apply Hor; by right).
    rewrite IH. apply Permutation_middle.
  - rewrite decide_False by (rewrite Hor; tauto). done.
Qed.

Lemma merge_cons (i : Image) (left : list Image) (right : list Trackeval.Detection) :
  merge (i :: left) right
  = map (pair i) (filter (λ d, im_id i = Some (image_id d)) right) ++ merge left right.
Proof.
  unfold merge. cbn [mbind list_bind]. f_equal.
Qed.

Lemma rows_of_image (bbox_column : Trackeval.Detection → option Box) (i : Image)
    (ds : list Trackeval.Detection) :
  map r_detection
    (omap (complete bbox_column)
       (map (pair (set_id i))
          (filter (λ d, im_id (set_id i) = Some (image_id d)) ds)))
  = filter (λ d, (is_Some (track_id d) ∧ is_Some (bbox_column d))
                 ∧ im_index i = image_id d ∧ is_Some (frame i)) ds.
Proof.
  induction ds as [|d ds IH]; [done |].
  rewrite !filter_cons.
  destruct (decide (im_id (set_id i) = Some (image_id d))) as [Hkey|Hkey].
  - injection Hkey as Hkey.
    cbn [map omap list_omap]. unfold complete at 1. cbn [fst snd frame set_id].
    destruct (frame i) as [f|] eqn:Ef, (track_id d) as [t|] eqn:Et,
      (bbox_column d) as [b|] eqn:Eb;
      first [ rewrite decide_True by (repeat split; eauto);
              cbn [map r_detection]; by rewrite IH
            | rewrite decide_False
                by (intros [[[? ?] [? ?]] [_ [? ?]]]; done);
              by rewrite IH ].
  - rewrite decide_False; [done |].
    intros (_ & Hk & _). apply Hkey. cbn. by rewrite Hk.
Qed.

(** X22: when the frames have distinct indices, the merged table of the
    line format holds every encodable detection exactly once and nothing
    else: its detections are a rearrangement of the detections that have
    a track_id, a box and a known frame with a frame number. *)
Theorem mot_encoding_detections (bbox_column : Trackeval.Detection → option Box)
    (w : World) :
  NoDup (map im_index (image_metadatas w)) →
  map r_detection (_mot_encoding bbox_column w).1
  ≡ₚ filter (encodable bbox_column (image_metadatas w)) (detections w)
  ∧ length (_mot_encoding bbox_column w).1
    = length (filter (encodable bbox_column (image_metadatas w)) (detections w)).
Proof.
  intros Hnd.
  assert (Hperm : map r_detection (_mot_encoding bbox_column w).1
                  ≡ₚ filter (encodable bbox_column (image_metadatas w))
                       (detections w)).
  { unfold _mot_encoding, copy, set_image_metadatas. cbn [fst image_metadatas].
    induction (image_metadatas w) as [|i images IH].
    - cbn. induction (detections w) as [|d ds IHd]; [done |].
      rewrite filter_cons, decide_False; [done |].
      intros [_ Hex]. by apply Exists_nil in Hex.
    - apply NoDup_cons in Hnd as [Hi Hnd].
      cbn [map]. rewrite merge_cons, omap_app, map_app, rows_of_image, (IH Hnd).
      symmetry. apply filter_disjoint_or.
      + intros d (_ & Hkey & _) [_ Hex]. apply Hi.
        apply Exists_exists in Hex as (j & Hj & Hkj & _).
        rewrite Hkey, <- Hkj. apply list_elem_of_In, in_map. by apply list_elem_of_In.
      + intros d. unfold encodable. rewrite Exists_cons. tauto. }
  split; [exact Hperm |].
  rewrite <- (length_map r_detection). by rewrite Hperm.
Qed.

Lemma mot_encoding_detections_witness :
  NoDup (map im_index
           (image_metadatas
              (sample_world
                 [sample_detection 0 0 0 (Some 1%Z); sample_detection 1 0 0 None]
                 [sample_image 0 0 0] [sample_video 0 "seq"])))
  ∧ length (_mot_encoding bbox_ltwh
              (sample_world
                 [sample_detection 0 0 0 (Some 1%Z); sample_detection 1 0 0 None]
                 [sample_image 0 0 0] [sample_video 0 "seq"])).1
    = length (filter (encodable bbox_ltwh [sample_image 0 0 0])
                [sample_detection 0 0 0 (Some 1%Z); sample_detection 1 0 0 None]).
Proof.
  assert (Hnd : NoDup (map im_index [sample_image 0 0 0])) by apply NoDup_singleton.
  split; [exact Hnd |].
  exact (proj2 (mot_encoding_detections bbox_ltwh
                  (sample_world
                     [sample_detection 0 0 0 (Some 1%Z); sample_detection 1 0 0 None]
                     [sample_image 0 0 0] [sample_video 0 "seq"]) Hnd)).
Defined.

(** ** Record model: arrays that are not boxes *)

(** X23: an array of three components is not refused: numpy broadcasts
    its single last component, which then serves as width and as height;
    an array of one component gives itself ([bbox_ltrb]) or the empty
    array ([bbox_cmwh]). *)
Theorem short_arrays_broadcast :
  ∀ (num : Type) (S : Scalar num) (l t w : num),
    bbox_ltrb [of_box [l; t; w]] = Ok [[l; t; add l w; add t w]]
    ∧ bbox_cmwh [of_box [l; t; w]]
      = Ok [[add l (halve w); add t (halve w); w]]
    ∧ bbox_ltrb [of_box [l]] = Ok [[l]]
    ∧ bbox_cmwh [of_box [l]] = Ok [[]].
Proof. intros num S l t w. repeat split. Qed.
